(** * rbclib: a read-only cloud path over the RBC dataset

    A shallow embedding of [src/rbclib/__init__.py] (the classes
    [RBCFileException], [RBCClient] and [RBCPath]) and the properties of its
    path parsing, location resolution, listing and status operations.

    Representation choices.

    - A Python [str] and a Python [bytes] are both a Rocq [string], a
      sequence of 8-bit characters.  A [str] is held as its UTF-8 encoding
      (what [os.fsencode] yields), so that [bytes(path)] is the identity on
      the representation and [dat.decode('utf-8')] succeeds exactly on the
      well-formed UTF-8 sequences, leaving the representation unchanged.
      The separator ['/'] is the single byte 0x2F and never occurs inside a
      multi-byte sequence, hence [startswith], [lstrip('/')], [split('/')]
      and ['/'.join] act on the encoding as they act on the text.
    - Exceptions are values of [exn]; a fallible pure computation returns
      [result A]; a computation that talks to the outside world runs in the
      monad [M], which threads the trace of external calls made so far.
    - What the library consumes from outside (the HTTP fetch, [json.loads],
      the operating system's file calls, the S3 client, the clock) is
      gathered in the record [env]. *)

From Stdlib Require Import String Ascii List Bool Arith NArith ZArith Lia.
Import ListNotations.

Local Open Scope string_scope.
Local Open Scope list_scope.

(* ================================================================== *)
(** * Exceptions and results *)
(* ================================================================== *)

Inductive exn : Type :=
| IndexError (msg : string)
| KeyError (key : string)
| TypeError (msg : string)
| RuntimeError (msg : string)
| NotImplementedError (msg : string)
| UnboundLocalError (var : string)
| UnicodeDecodeError
| FileNotFoundError (what : string)
| InvalidPrefixError (what : string)
| OSError (what : string)          (* any other failure of a file call *)
| URLError (what : string)         (* failure of the HTTP fetch *)
| JSONDecodeError
| ValueError (msg : string)
| RBCFileException (url : string) (contents : string).

Inductive result (A : Type) : Type :=
| Ok (a : A)
| Err (e : exn).
Arguments Ok {A} a.
Arguments Err {A} e.

(* ================================================================== *)
(** * Python strings *)
(* ================================================================== *)

Module Py.

Definition str := string.
Definition bytes := string.

Definition slash : ascii := "/"%char.

(** [s.startswith(pre)] *)
Fixpoint startswith (pre s : string) : bool :=
  match pre, s with
  | EmptyString, _ => true
  | String a pre', String b s' => Ascii.eqb a b && startswith pre' s'
  | String _ _, EmptyString => false
  end.

(** [s[n:]] *)
Fixpoint drop (n : nat) (s : string) : string :=
  match n, s with
  | O, _ => s
  | S n', String _ s' => drop n' s'
  | S _, EmptyString => EmptyString
  end.

(** [s.lstrip(c)] for a single character [c] *)
Fixpoint lstrip (c : ascii) (s : string) : string :=
  match s with
  | String a s' => if Ascii.eqb a c then lstrip c s' else s
  | EmptyString => EmptyString
  end.

(** [s.split(sep)] for a single character [sep]: never the empty list. *)
Fixpoint split (sep : ascii) (s : string) : list string :=
  match s with
  | EmptyString => [EmptyString]
  | String a s' =>
      if Ascii.eqb a sep then EmptyString :: split sep s'
      else match split sep s' with
           | h :: t => String a h :: t
           | [] => [String a EmptyString]
           end
  end.

(** [sep.join(l)] *)
Fixpoint join (sep : string) (l : list string) : string :=
  match l with
  | [] => EmptyString
  | [x] => x
  | x :: (_ :: _) as t => x ++ sep ++ join sep t
  end.

(** [needle in hay] *)
Fixpoint contains (needle hay : string) : bool :=
  startswith needle hay ||
  match hay with
  | EmptyString => false
  | String _ hay' => contains needle hay'
  end.

(** [c in s] for a single character [c] *)
Fixpoint has_char (c : ascii) (s : string) : bool :=
  match s with
  | EmptyString => false
  | String a s' => Ascii.eqb a c || has_char c s'
  end.

(** A piece of a path: a text without ['/']. *)
Definition slash_free (x : string) : Prop := has_char slash x = false.

(** [l[-1]] on the outcome of [split], which is never empty. *)
Definition last_item (l : list string) : string := List.last l EmptyString.

(** [len(b)] *)
Definition len (b : bytes) : Z := Z.of_nat (String.length b).

(** ASCII lower-casing, as [str.lower] acts on the letters A-Z. *)
Definition lower_ascii (a : ascii) : ascii :=
  let n := N_of_ascii a in
  if (65 <=? n)%N && (n <=? 90)%N then ascii_of_N (n + 32) else a.

Fixpoint lower (s : string) : string :=
  match s with
  | EmptyString => EmptyString
  | String a s' => String (lower_ascii a) (lower s')
  end.

(** ** Strict UTF-8 well-formedness (RFC 3629), the condition under which
    [bytes.decode('utf-8')] returns instead of raising. *)

Definition in_range (lo hi : N) (a : ascii) : bool :=
  let n := N_of_ascii a in (lo <=? n)%N && (n <=? hi)%N.

Definition cont (a : ascii) : bool := in_range 128 191 a.

Fixpoint utf8_valid (s : string) : bool :=
  match s with
  | EmptyString => true
  | String b0 t0 =>
      if in_range 0 127 b0 then utf8_valid t0
      else
        match t0 with
        | EmptyString => false
        | String b1 t1 =>
            if in_range 194 223 b0 then cont b1 && utf8_valid t1
            else
              match t1 with
              | EmptyString => false
              | String b2 t2 =>
                  if in_range 224 224 b0 then
                    in_range 160 191 b1 && cont b2 && utf8_valid t2
                  else if in_range 225 236 b0 || in_range 238 239 b0 then
                    cont b1 && cont b2 && utf8_valid t2
                  else if in_range 237 237 b0 then
                    in_range 128 159 b1 && cont b2 && utf8_valid t2
                  else
                    match t2 with
                    | EmptyString => false
                    | String b3 t3 =>
                        if in_range 240 240 b0 then
                          in_range 144 191 b1 && cont b2 && cont b3
                          && utf8_valid t3
                        else if in_range 241 243 b0 then
                          cont b1 && cont b2 && cont b3 && utf8_valid t3
                        else if in_range 244 244 b0 then
                          in_range 128 143 b1 && cont b2 && cont b3
                          && utf8_valid t3
                        else false
                    end
              end
        end
  end.

(** [b.decode('utf-8')] *)
Definition decode_utf8 (b : bytes) : result str :=
  if utf8_valid b then Ok b else Err UnicodeDecodeError.

End Py.

(* ================================================================== *)
(** * pathlib's pure POSIX paths *)
(* ================================================================== *)

Module Posix.

(** A parsed path: the root (empty, ["/"] or ["//"]) and the segments. *)
Record PurePath : Type := mkPath { root : string; segs : list string }.

(** A segment is kept when it is neither empty nor ["."]. *)
Definition keep (x : string) : bool :=
  negb (String.eqb x EmptyString) && negb (String.eqb x ".").

(** [posixpath.splitroot]: exactly two leading slashes form the root
    ["//"], one or at least three form the root ["/"]. *)
Definition splitroot (p : string) : string * string :=
  match p with
  | String a p1 =>
      if Ascii.eqb a Py.slash then
        match p1 with
        | String b p2 =>
            if Ascii.eqb b Py.slash then
              match p2 with
              | String c _ =>
                  if Ascii.eqb c Py.slash then ("/", p1) else ("//", p2)
              | EmptyString => ("//", p2)
              end
            else ("/", p1)
        | EmptyString => ("/", p1)
        end
      else (EmptyString, p)
  | EmptyString => (EmptyString, p)
  end.

(** [PurePosixPath(s)] *)
Definition parse (s : string) : PurePath :=
  let '(r, rel) := splitroot s in
  mkPath r (filter keep (Py.split Py.slash rel)).

(** [p.parts] *)
Definition parts (p : PurePath) : list string :=
  if String.eqb (root p) EmptyString then segs p else root p :: segs p.

(** [str(p)] *)
Definition to_str (p : PurePath) : string :=
  match root p, segs p with
  | EmptyString, [] => "."
  | r, l => r ++ Py.join "/" l
  end.

(** [p / s] for a string [s]: an absolute right operand replaces [p]. *)
Definition joinpath (p : PurePath) (s : string) : PurePath :=
  let q := parse s in
  if String.eqb (root q) EmptyString then mkPath (root p) (segs p ++ segs q) else q.

(** The child of [p] named [name], as [iterdir] builds it. *)
Definition child (p : PurePath) (name : string) : PurePath :=
  mkPath (root p) (segs p ++ [name]).

End Posix.

Declare Scope path_scope.
Delimit Scope path_scope with path.
Infix "//" := Posix.joinpath (at level 40, left associativity) : path_scope.

(* ================================================================== *)
(** * Values, objects and the outside world *)
(* ================================================================== *)

(** The Python values that flow through the listing code: what
    [json.loads] returns, and the dictionaries [{'path': p}] the local
    mirror builds, whose ['path'] entry is a [Path] object. *)
#[warnings="-register-all"]
Inductive pyval : Type :=
| PNone
| PBool (b : bool)
| PInt (n : Z)
| PFloat (repr : string)
| PStr (s : Py.str)
| PPath (p : Posix.PurePath)
| PList (items : list pyval)
| PDict (entries : list (string * pyval)).

(** [isinstance(v, list)] and [isinstance(v, dict)] *)
Definition is_list (v : pyval) : bool :=
  match v with PList _ => true | _ => false end.
Definition is_dict (v : pyval) : bool :=
  match v with PDict _ => true | _ => false end.

(** [os.stat_result], built from a 10-tuple in the order of its fields. *)
Record stat_result : Type := mkStat {
  st_mode : pyval;  st_ino : pyval;  st_dev : pyval;  st_nlink : pyval;
  st_uid : pyval;   st_gid : pyval;  st_size : pyval; st_atime : pyval;
  st_mtime : pyval; st_ctime : pyval
}.

(** A stat result is a non-empty tuple, so it is always true. *)
Definition stat_truth (s : stat_result) : bool := true.

(** [RBCClient]: the state the methods read is [self._github_path]. *)
Record RBCClient : Type := mkClient {
  _github_path : option Posix.PurePath
}.

(** [RBCPath]: the string it was built from, its client, and the cached
    status [self._stat]. *)
Record RBCPath : Type := mkRBCPath {
  cloud_path : string;
  client : RBCClient;
  _stat : option stat_result
}.

(** [cloudpathlib.s3.S3Path(url, client=self._s3client)] *)
Record S3Path : Type := mkS3Path { s3_url : string }.

(** What a method may receive as a path argument. *)
Inductive pathlike : Type :=
| AStr (s : string)
| ARBCPath (p : RBCPath)
| AOther (rendering : string).   (* any other object, with its [str()] *)

Coercion AStr : string >-> pathlike.

(** [str(path)] *)
Definition str_of (p : pathlike) : string :=
  match p with
  | AStr s => s
  | ARBCPath p => cloud_path p
  | AOther s => s
  end.

(** The external calls a computation can make. *)
Inductive event : Type :=
| EvHttpGet (url : string)
| EvIsDir (p : string)
| EvIsFile (p : string)
| EvReadlink (p : string)
| EvLstat (p : string)
| EvListdir (p : string)
| EvS3Stat (url : string)
| EvTime.

Definition trace := list event.

(** The number of network calls in a trace. *)
Definition is_network (e : event) : bool :=
  match e with EvHttpGet _ | EvS3Stat _ => true | _ => false end.
Definition network_calls (t : trace) : nat :=
  List.length (filter is_network t).

(** The external collaborators, as oracles: the answer of each call is a
    function of its argument (the sources do not change while the library
    runs); the clock is a function of the calls made so far. *)
Record env : Type := mkEnv {
  urlopen_read : string -> result Py.bytes;      (* urlopen(url).read() *)
  json_loads : Py.bytes -> result pyval;
  py_str : pyval -> string;                      (* builtin str() *)
  os_is_dir : string -> result bool;             (* Path.is_dir *)
  os_is_file : string -> result bool;            (* Path.is_file *)
  os_readlink : string -> result string;         (* os.readlink *)
  os_lstat : string -> result stat_result;       (* Path.lstat *)
  os_listdir : string -> result (list string);   (* names, for iterdir *)
  s3_stat : string -> result stat_result;        (* S3Path.stat *)
  time_time : trace -> Z;                        (* int(time.time()) *)
  get_default_client : result unit;              (* RBCClient.get_default_client() *)
  cloudpath_init : string -> result unit         (* CloudPath.__init__(s, client) *)
}.

(* ================================================================== *)
(** * The monad of external calls and exceptions *)
(* ================================================================== *)

Definition M (A : Type) : Type := trace -> result A * trace.

Definition ret {A} (a : A) : M A := fun t => (Ok a, t).
Definition raise {A} (e : exn) : M A := fun t => (Err e, t).
Definition bind {A B} (m : M A) (k : A -> M B) : M B :=
  fun t => match m t with
           | (Ok a, t') => k a t'
           | (Err e, t') => (Err e, t')
           end.
(** A pure fallible step. *)
Definition lift {A} (r : result A) : M A := fun t => (r, t).
(** An external call: its answer, and the call recorded. *)
Definition call {A} (ev : event) (r : result A) : M A :=
  fun t => (r, t ++ [ev]).
(** [try: m  except RBCFileException as e: h e.url e.contents] *)
Definition try_rbc {A} (m : M A) (h : string -> Py.bytes -> M A) : M A :=
  fun t => match m t with
           | (Err (RBCFileException u c), t') => h u c t'
           | r => r
           end.

(** A computation whose outcome and calls are the same whatever calls were
    made before it: it appends a fixed list of calls to the trace. *)
Definition uniform {A} (m : M A) : Prop :=
  exists (r : result A) (evs : trace), forall t, m t = (r, (t ++ evs)%list).

Notation "x <- m ;; k" := (bind m (fun x => k))
  (at level 61, m at next level, right associativity).
Notation "' pat <- m ;; k" := (bind m (fun x => match x with pat => k end))
  (at level 61, pat pattern, m at next level, right associativity).

(** [int(time.time())] *)
Definition clock (E : env) : M Z :=
  fun t => (Ok (time_time E t), t ++ [EvTime]).

(** The file calls of a [Path] object. *)
Module Fs.

Definition is_dir (E : env) (p : Posix.PurePath) : M bool :=
  call (EvIsDir (Posix.to_str p)) (os_is_dir E (Posix.to_str p)).
Definition is_file (E : env) (p : Posix.PurePath) : M bool :=
  call (EvIsFile (Posix.to_str p)) (os_is_file E (Posix.to_str p)).
Definition lstat (E : env) (p : Posix.PurePath) : M stat_result :=
  call (EvLstat (Posix.to_str p)) (os_lstat E (Posix.to_str p)).
(** [p.readlink()] wraps the target in a [Path], which parses it. *)
Definition readlink (E : env) (p : Posix.PurePath) : M Posix.PurePath :=
  target <- call (EvReadlink (Posix.to_str p)) (os_readlink E (Posix.to_str p)) ;;
  ret (Posix.parse target).
(** [p.iterdir()], consumed to the end. *)
Definition iterdir (E : env) (p : Posix.PurePath) : M (list Posix.PurePath) :=
  names <- call (EvListdir (Posix.to_str p)) (os_listdir E (Posix.to_str p)) ;;
  ret (map (Posix.child p) names).
(** [bytes(p)] of a [Path] *)
Definition bytes_of_path (p : Posix.PurePath) : Py.bytes := Posix.to_str p.

End Fs.

(* ================================================================== *)
(** * RBCClient *)
(* ================================================================== *)

Module Client.

Import Fs.
Local Open Scope string_scope.
Local Open Scope path_scope.

Definition read_only_msg : string := "RBCPath operations are read-only".

(** The fragment that marks a git-annex pointer. *)
Definition annex_marker : Py.bytes := "/.git/annex/objects/".

(** The fixed object-store prefix. *)
Definition s3_prefix : string := "s3://fcp-indi/data/Projects/RBC/".

(** [RBCClient._url_slurp] *)
Definition _url_slurp (E : env) (url : string) : M Py.bytes :=
  call (EvHttpGet url) (urlopen_read E url).

(** The scheme test of [_path_split_repo]: the two spellings it looks for. *)
Definition has_scheme (path : string) : bool :=
  Py.startswith "rbc://" path || Py.startswith "RBC://" path.

(** [RBCClient._path_split_repo] *)
Definition _path_split_repo (path : pathlike) : result (string * string) :=
  let path := str_of path in
  let path := if has_scheme path then Py.drop 6 path else path in
  let path := Py.lstrip Py.slash path in
  let parts := Posix.parts (Posix.parse path) in
  match parts with
  | [] => Err (IndexError "tuple index out of range")      (* parts[0] *)
  | repo :: rest => Ok (repo, Py.join "/" rest)
  end.

(** [RBCClient._get_github_path] *)
Definition _get_github_path (path : pathlike) : result string :=
  match _path_split_repo path with
  | Ok (repo, tail) =>
      Ok ("https://raw.githubusercontent.com/ReproBrainChart/"
          ++ repo ++ "/refs/heads/main/" ++ tail)
  | Err e => Err e
  end.

(** [RBCClient._get_github_apipath] *)
Definition _get_github_apipath (path : pathlike) : result string :=
  match _path_split_repo path with
  | Ok (repo, tail) =>
      Ok ("https://api.github.com/repos/ReproBrainChart/"
          ++ repo ++ "/contents/" ++ tail)
  | Err e => Err e
  end.

(** [RBCClient._get_github_json] *)
Definition _get_github_json (E : env) (self : RBCClient) (path : pathlike)
  : M pyval :=
  match _github_path self with
  | Some github_path =>
      '(repo, tail) <- lift (_path_split_repo path) ;;
      let locpath := github_path // repo // tail in
      d <- is_dir E locpath ;;
      if d then
        ps <- iterdir E locpath ;;
        ret (PList (map (fun p => PDict [("path", PPath p)]) ps))
      else
        st <- lstat E locpath ;;
        if stat_truth st then ret (PDict [("path", PPath locpath)])
        else raise (FileNotFoundError (str_of path))
  | None =>
      url <- lift (_get_github_path path) ;;
      dat <- _url_slurp E url ;;
      lift (json_loads E dat)
  end.

(** [RBCClient._get_s3_path], in two stages.  The local variable [ghpath]
    is assigned in the remote branch only: it is carried as an [option],
    and reading it while unassigned raises [UnboundLocalError].

    The first stage is the [if self._github_path is not None: ... else: ...]
    statement: it either returns at once (the local path is a directory or
    a file: [inl]) or leaves [ghpath] and the indirection bytes [dat] to the
    rest of the body ([inr]). *)
Definition obtain_bytes (E : env) (self : RBCClient) (path : pathlike)
  (repo tail : string) : M (string + option string * Py.bytes) :=
  let base := s3_prefix ++ repo in
  match _github_path self with
  | Some github_path =>
      let localpath := github_path // repo // tail in
      d <- is_dir E localpath ;;
      f <- (if d then ret true else is_file E localpath) ;;
      if f then ret (inl (base ++ "/" ++ tail))
      else
        target <- readlink E localpath ;;
        ret (inr (None, bytes_of_path target))
  | None =>
      ghpath <- lift (_get_github_path path) ;;
      dat <- _url_slurp E ghpath ;;
      ret (inr (Some ghpath, dat))
  end.

Definition _get_s3_path (E : env) (self : RBCClient) (path : pathlike)
  : M string :=
  '(repo, tail) <- lift (_path_split_repo path) ;;
  r <- obtain_bytes E self path repo tail ;;
  match r with
  | inl s3 => ret s3
  | inr (ghpath, dat) =>
      if negb (Py.contains annex_marker dat) then
        match ghpath with
        | Some url => raise (RBCFileException url dat)
        | None => raise (UnboundLocalError "ghpath")
        end
      else
        text <- lift (Py.decode_utf8 dat) ;;
        let file := Py.last_item (Py.split Py.slash text) in
        ret (s3_prefix ++ repo ++ "/" ++ file)
  end.

(** [RBCClient._move_file], [_remove] and [_upload_file] *)
Definition _move_file (self : RBCClient) (src dst : pathlike)
  (remove_src : bool) : M unit :=
  raise (RuntimeError read_only_msg).
Definition _remove (self : RBCClient) (path : pathlike)
  (missing_ok : bool) : M unit :=
  raise (RuntimeError read_only_msg).
Definition _upload_file (self : RBCClient) (local_path : string)
  (cloud_path : pathlike) : M unit :=
  raise (RuntimeError read_only_msg).

(** [RBCClient.to_s3] *)
Definition to_s3 (E : env) (self : RBCClient) (cloud_path : pathlike)
  : M S3Path :=
  match cloud_path with
  | AOther _ =>
      raise (TypeError "cannot download path that is not an RBCPath")
  | _ =>
      s3path <- _get_s3_path E self cloud_path ;;
      ret (mkS3Path s3path)
  end.

(** [filedict['path']] *)
Fixpoint assoc (key : string) (kv : list (string * pyval)) : option pyval :=
  match kv with
  | [] => None
  | (k, v) :: kv' => if String.eqb k key then Some v else assoc key kv'
  end.

Definition subscript (v : pyval) (key : string) : result pyval :=
  match v with
  | PDict kv =>
      match assoc key kv with
      | Some x => Ok x
      | None => Err (KeyError key)
      end
  | PList _ =>
      Err (TypeError "list indices must be integers or slices, not str")
  | PStr _ => Err (TypeError "string indices must be integers, not 'str'")
  | PNone => Err (TypeError "'NoneType' object is not subscriptable")
  | PBool _ => Err (TypeError "'bool' object is not subscriptable")
  | PInt _ => Err (TypeError "'int' object is not subscriptable")
  | PFloat _ => Err (TypeError "'float' object is not subscriptable")
  | PPath _ => Err (TypeError "'PosixPath' object is not subscriptable")
  end.

(** [f"{v}"]: a string is itself, a [Path] is [str(p)]. *)
Definition format (E : env) (v : pyval) : string :=
  match v with
  | PStr s => s
  | PPath p => Posix.to_str p
  | _ => py_str E v
  end.

(** [RBCPath(s, client=c)] for a string [s] and a client [c], in the
    order of [RBCPath.__init__]: the default client is looked up first
    ([RBCClient.get_default_client()], which builds one when there is none
    and raises what that construction raises); the prefix is validated
    without regard to case ([is_valid_cloudpath]); then the base class is
    initialised ([CloudPath.__init__], which parses the string as a URL
    and raises [ValueError] when it cannot).  The object keeps the string
    as it is, the client it was given and an empty status cache. *)
Definition new_RBCPath (E : env) (s : string) (c : RBCClient)
  : result RBCPath :=
  match get_default_client E with
  | Ok _ =>
      if Py.startswith "rbc://" (Py.lower s) then
        match cloudpath_init E s with
        | Ok _ => Ok (mkRBCPath s c None)
        | Err e => Err e
        end
      else Err (InvalidPrefixError s)
  | Err e => Err e
  end.

(** The generator expression [_list_dir] returns: nothing of its body has
    run yet. *)
Record generator : Type := mkGen {
  gen_repo : string;
  gen_self : RBCClient;
  gen_source : list pyval
}.

(** One step of the generator's body. *)
Definition gen_body (E : env) (g : generator) (filedict : pyval)
  : result RBCPath :=
  match subscript filedict "path" with
  | Ok v =>
      new_RBCPath E ("rbc://" ++ gen_repo g ++ "/" ++ format E v) (gen_self g)
  | Err e => Err e
  end.

(** Consuming the generator: the paths yielded, and the exception that
    ended it, if any. *)
Fixpoint gen_run (E : env) (g : generator) (l : list pyval)
  : list RBCPath * option exn :=
  match l with
  | [] => ([], None)
  | x :: l' =>
      match gen_body E g x with
      | Ok p => let '(ps, e) := gen_run E g l' in (p :: ps, e)
      | Err e => ([], Some e)
      end
  end.

Definition consume (E : env) (g : generator) : list RBCPath * option exn :=
  gen_run E g (gen_source g).

Definition list_items (v : pyval) : list pyval :=
  match v with PList l => l | _ => [] end.

(** [RBCClient._list_dir] *)
Definition _list_dir (E : env) (self : RBCClient) (cloud_path : pathlike)
  (recursive : bool) : M generator :=
  if recursive then
    raise (NotImplementedError
             "recursive listing of RBC projects is not supported")
  else
    '(repo, tail) <- lift (_path_split_repo cloud_path) ;;
    json <- _get_github_json E self cloud_path ;;
    if negb (is_list json) then
      raise (TypeError ("cannot list non-directory: " ++ str_of cloud_path))
    else ret (mkGen repo self (list_items json)).

(** [RBCClient._path_kind] *)
Definition _path_kind (E : env) (self : RBCClient) (cloud_path : pathlike)
  : M string :=
  json <- _get_github_json E self cloud_path ;;
  if negb (is_list json) then ret "directory"
  else ret "file".

(** The read-only failure: the exception the mutating operations raise,
    a [RuntimeError] in the client and a [TypeError] in the path class,
    both with the message [read_only_msg]. *)
Definition ReadOnlyError (e : exn) : Prop :=
  e = RuntimeError read_only_msg \/ e = TypeError read_only_msg.

(** A computation that fails with the read-only failure whatever calls
    were made before, and makes none itself. *)
Definition fails_read_only {A} (m : M A) : Prop :=
  forall t : trace, exists e, m t = (Err e, t) /\ ReadOnlyError e.


End Client.

(* ================================================================== *)
(** * RBCPath *)
(* ================================================================== *)

Module CloudPath.

(** [RBCPath.s3path] *)
Definition s3path (E : env) (self : RBCPath) : M S3Path :=
  Client.to_s3 E (client self) (ARBCPath self).

(** [RBCPath.is_dir] and [RBCPath.is_file] *)
Definition is_dir (E : env) (self : RBCPath) : M bool :=
  json <- Client._get_github_json E (client self) (ARBCPath self) ;;
  ret (is_list json).
Definition is_file (E : env) (self : RBCPath) : M bool :=
  json <- Client._get_github_json E (client self) (ARBCPath self) ;;
  ret (is_dict json).

(** [RBCPath.mkdir] and [RBCPath.touch] *)
Definition mkdir (self : RBCPath) (parents exist_ok : bool) : M unit :=
  raise (TypeError Client.read_only_msg).
Definition touch (self : RBCPath) (exist_ok : bool) : M unit :=
  raise (TypeError Client.read_only_msg).

(** [S3Path.stat], the object store's answer. *)
Definition s3_path_stat (E : env) (p : S3Path) : M stat_result :=
  call (EvS3Stat (s3_url p)) (s3_stat E (s3_url p)).

(** The status synthesized for content held in git. *)
Definition github_stat (contents : Py.bytes) (now : Z) : stat_result :=
  mkStat PNone PNone (PStr "github://")
         PNone PNone PNone
         (PInt (Py.len contents))
         PNone (PInt now) PNone.

(** [RBCPath.stat]: the status, and the object with its cache filled. *)
Definition stat (E : env) (self : RBCPath) : M (stat_result * RBCPath) :=
  match _stat self with
  | None =>
      s <- try_rbc (p <- s3path E self ;; s3_path_stat E p)
                   (fun url contents =>
                      now <- clock E ;;
                      ret (github_stat contents now)) ;;
      ret (s, mkRBCPath (cloud_path self) (client self) (Some s))
  | Some s => ret (s, self)
  end.

(** [RBCPath.iterdir] *)
Definition iterdir (E : env) (self : RBCPath) : M Client.generator :=
  Client._list_dir E (client self) (ARBCPath self) false.

End CloudPath.

(* ================================================================== *)
(** * Concrete scenarios *)
(* ================================================================== *)

Module Scenario.

Local Open Scope string_scope.

Definition raw_url (tail : string) : string :=
  "https://raw.githubusercontent.com/ReproBrainChart/repo1/refs/heads/main/"
  ++ tail.

(** A git-annex pointer, a small file held in git, a directory listing as
    the metadata API words it, and a pointer-like blob that is not text. *)
Definition pointer : Py.bytes :=
  "../../.git/annex/objects/xx/yy/MD5E-s123--abcdef/MD5E-s123--abcdef".
Definition participants : Py.bytes := "participant_id,age sub-01,9 sub-02,11".
Definition dq : string := String (ascii_of_N 34) EmptyString.
Definition listing_json : Py.bytes :=
  "[{" ++ dq ++ "path" ++ dq ++ ":" ++ dq ++ "sub/a.txt" ++ dq ++ "},{"
  ++ dq ++ "path" ++ dq ++ ":" ++ dq ++ "sub/b.txt" ++ dq ++ "}]".
Definition listing : pyval :=
  PList [PDict [("path", PStr "sub/a.txt")];
         PDict [("path", PStr "sub/b.txt")]].
Definition blob : Py.bytes :=
  String (ascii_of_N 255) "/.git/annex/objects/k".

Definition absent {A} (what : string) : result A :=
  Err (FileNotFoundError what).

(** What [urlparse] takes for the host of [rbc://host/...], and its test
    for a bracket without its partner, on which it raises [ValueError]. *)
Definition netloc (s : string) : string :=
  List.hd EmptyString (Py.split Py.slash (Py.drop 6 s)).
Definition unbalanced (host : string) : bool :=
  xorb (Py.has_char "["%char host) (Py.has_char "]"%char host).

(** The remote side: four paths of [repo1] answer, everything else is
    missing.  The local side: a mirror under [/mirror] where [repo1/sub] is
    a real directory with two children, [repo1/data.nii.gz] is a link to an
    annexed object that is not there, and [repo1/notes.txt] is a dangling
    link to a plain path.  A default client is at hand, and a path object
    is built unless its host has a bracket without its partner. *)
Definition world : env := {|
  urlopen_read url :=
    if String.eqb url (raw_url "data.nii.gz") then Ok pointer
    else if String.eqb url (raw_url "participants.tsv") then Ok participants
    else if String.eqb url (raw_url "sub") then Ok listing_json
    else if String.eqb url (raw_url "blob.bin") then Ok blob
    else Err (URLError "HTTP Error 404: Not Found");
  json_loads dat :=
    if String.eqb dat listing_json then Ok listing else Err JSONDecodeError;
  py_str _ := "<object>";
  os_is_dir p :=
    Ok (String.eqb p "/mirror" || String.eqb p "/mirror/repo1"
        || String.eqb p "/mirror/repo1/sub");
  os_is_file p :=
    Ok (String.eqb p "/mirror/repo1/sub/a.txt"
        || String.eqb p "/mirror/repo1/sub/b.txt");
  os_readlink p :=
    if String.eqb p "/mirror/repo1/data.nii.gz" then Ok pointer
    else if String.eqb p "/mirror/repo1/notes.txt" then Ok "elsewhere/notes.txt"
    else absent p;
  os_lstat p :=
    if String.eqb p "/mirror/repo1/data.nii.gz"
       || String.eqb p "/mirror/repo1/notes.txt"
    then Ok (mkStat PNone PNone PNone PNone PNone PNone PNone PNone PNone PNone)
    else absent p;
  os_listdir p :=
    if String.eqb p "/mirror/repo1/sub" then Ok ["a.txt"; "b.txt"]
    else absent p;
  s3_stat url := absent url;
  time_time t := (1750000000 + Z.of_nat (List.length t))%Z;
  get_default_client := Ok tt;
  cloudpath_init s :=
    if unbalanced (netloc s) then Err (ValueError "Invalid IPv6 URL")
    else Ok tt
|}.

(** A client without a local mirror, and one with the mirror [/mirror]. *)
Definition remote_client : RBCClient := mkClient None.
Definition mirror_client : RBCClient :=
  mkClient (Some (Posix.parse "/mirror")).

(** Path objects of the two clients, with nothing cached. *)
Definition participants_path : RBCPath :=
  mkRBCPath "rbc://repo1/participants.tsv" remote_client None.
Definition sub_path (c : RBCClient) : RBCPath :=
  mkRBCPath "rbc://repo1/sub" c None.

(** The virtual paths a generator yields, as strings. *)
Definition yielded (r : result Client.generator * trace)
  : list string * option exn :=
  match fst r with
  | Ok g => let '(ps, e) := Client.consume world g in (map cloud_path ps, e)
  | Err e => ([], Some e)
  end.

End Scenario.

(* ================================================================== *)
(** * The object store, local files and construction of a client *)
(* ================================================================== *)

Module Facade.

Local Open Scope string_scope.

(** The external calls of the operations below that [event] does not
    list: the S3 client, the write of a local file, the environment and
    the construction of the base class and of the S3 client. *)
Inductive io_event : Type :=
| IoS3Exists (url : string)
| IoS3Download (url local_path : string)
| IoS3PublicUrl (url : string)
| IoS3Presign (url : string) (expire_seconds : Z)
| IoOpenWrite (p : string)
| IoWrite (p : string) (contents : Py.bytes)
| IoEnviron (name : string)
| IoExists (p : string)
| IoSuperInit
| IoS3ClientInit.

(** Their answers, as oracles. *)
Record services : Type := mkServices {
  s3_exists : string -> result bool;               (* S3Client._exists *)
  s3_download : string -> string -> result string; (* S3Client._download_file *)
  s3_public_url : string -> result string;         (* S3Client._get_public_url *)
  s3_presigned_url : string -> Z -> result string; (* S3Client._generate_presigned_url *)
  open_wb : string -> result unit;                 (* Path.open('wb') *)
  write_all : string -> Py.bytes -> result unit;   (* f.write(b), then close *)
  environ_get : string -> option string;           (* os.environ.get *)
  os_exists : string -> result bool;               (* Path.exists *)
  super_init : result unit;                        (* Client.__init__ *)
  s3client_init : result unit                      (* S3Client(...) *)
}.

(** The two logs: the calls [event] lists, and the others. *)
Record logs : Type := mkLogs { calls : trace; io : list io_event }.

Definition IO (A : Type) : Type := logs -> result A * logs.

Definition io_ret {A} (a : A) : IO A := fun w => (Ok a, w).
Definition io_raise {A} (e : exn) : IO A := fun w => (Err e, w).
Definition io_bind {A B} (m : IO A) (k : A -> IO B) : IO B :=
  fun w => match m w with
           | (Ok a, w') => k a w'
           | (Err e, w') => (Err e, w')
           end.
(** A computation of [M], run on the first log. *)
Definition of_M {A} (m : M A) : IO A :=
  fun w => let '(r, t') := m (calls w) in (r, mkLogs t' (io w)).
(** An external call of the second kind. *)
Definition io_call {A} (ev : io_event) (r : result A) : IO A :=
  fun w => (r, mkLogs (calls w) (io w ++ [ev])%list).
(** [try: x = m  except RBCFileException as e: h e.url e.contents
    else: k x]: the [else] part is not covered by the handler. *)
Definition try_else {A B} (m : IO A) (h : string -> Py.bytes -> IO B)
  (k : A -> IO B) : IO B :=
  fun w => match m w with
           | (Ok a, w') => k a w'
           | (Err (RBCFileException u c), w') => h u c w'
           | (Err e, w') => (Err e, w')
           end.

Notation "x <~ m ;; k" := (io_bind m (fun x => k))
  (at level 61, m at next level, right associativity).

(** [RBCClient.__init__]: the mirror is the argument, or the shared drive
    of the NeuroHackademy hub when the image name tells so; it must exist
    and be a directory.  The first stage ends the construction at once
    ([inl]) or leaves the path to check ([inr]). *)
Definition __init__ (E : env) (S : services) (github_path : option string)
  : IO RBCClient :=
  _ <~ io_call IoSuperInit (super_init S) ;;
  _ <~ io_call IoS3ClientInit (s3client_init S) ;;
  r <~ match github_path with
       | None =>
           img <~ io_call (IoEnviron "JUPYTER_IMAGE")
                          (Ok (environ_get S "JUPYTER_IMAGE")) ;;
           if match img with
              | Some s => Py.contains "quay.io/arokem/nh2025" s
              | None => false
              end
           then io_ret (inr "/home/jovyan/shared/RBC")
           else io_ret (inl (mkClient None))
       | Some gp => io_ret (inr gp)
       end ;;
  match r with
  | inl self => io_ret self
  | inr gp =>
      let github_path := Posix.parse gp in
      ex <~ io_call (IoExists (Posix.to_str github_path))
                    (os_exists S (Posix.to_str github_path)) ;;
      if negb ex then
        io_raise (RuntimeError ("github path does not exist: "
                                ++ Posix.to_str github_path))
      else
        d <~ of_M (Fs.is_dir E github_path) ;;
        if negb d then
          io_raise (RuntimeError ("github path is not a directory: "
                                  ++ Posix.to_str github_path))
        else io_ret (mkClient (Some github_path))
  end.

(** [RBCClient._download_file] *)
Definition _download_file (E : env) (S : services) (self : RBCClient)
  (cloud_path : pathlike) (local_path : string) : IO (option string) :=
  match cloud_path with
  | ARBCPath _ =>
      try_else (of_M (Client.to_s3 E self cloud_path))
        (fun _ contents =>
           let local_path := Posix.to_str (Posix.parse local_path) in
           _ <~ io_call (IoOpenWrite local_path) (open_wb S local_path) ;;
           _ <~ io_call (IoWrite local_path contents)
                        (write_all S local_path contents) ;;
           io_ret None)
        (fun s3path =>
           r <~ io_call (IoS3Download (s3_url s3path) local_path)
                        (s3_download S (s3_url s3path) local_path) ;;
           io_ret (Some r))
  | _ => io_raise (TypeError "cannot download path that is not an RBCPath")
  end.

(** [RBCClient._exists] *)
Definition _exists (E : env) (S : services) (self : RBCClient)
  (cloud_path : pathlike) : IO bool :=
  try_else (of_M (Client.to_s3 E self cloud_path))
    (fun _ _ => io_ret true)
    (fun s3path =>
       io_call (IoS3Exists (s3_url s3path)) (s3_exists S (s3_url s3path))).

(** [RBCClient._get_public_url] *)
Definition _get_public_url (E : env) (S : services) (self : RBCClient)
  (cloud_path : pathlike) : IO string :=
  try_else (of_M (Client.to_s3 E self cloud_path))
    (fun url _ => io_ret url)
    (fun s3path =>
       io_call (IoS3PublicUrl (s3_url s3path))
               (s3_public_url S (s3_url s3path))).

(** [RBCClient._generate_presigned_url] *)
Definition _generate_presigned_url (E : env) (S : services)
  (self : RBCClient) (cloud_path : pathlike) (expire_seconds : Z)
  : IO string :=
  try_else (of_M (Client.to_s3 E self cloud_path))
    (fun url _ => io_ret url)
    (fun s3path =>
       io_call (IoS3Presign (s3_url s3path) expire_seconds)
               (s3_presigned_url S (s3_url s3path) expire_seconds)).

(** An answer that is the library's own literal-content signal. *)
Definition is_signal {A} (r : result A) : bool :=
  match r with Err (RBCFileException _ _) => true | _ => false end.

(** The outside world does not know [RBCFileException]: no oracle answers
    with it. *)
Definition env_quiet (E : env) : Prop :=
  (forall u, is_signal (urlopen_read E u) = false) /\
  (forall p, is_signal (os_is_dir E p) = false) /\
  (forall p, is_signal (os_is_file E p) = false) /\
  (forall p, is_signal (os_readlink E p) = false).

Definition services_quiet (S : services) : Prop :=
  (forall u, is_signal (s3_exists S u) = false) /\
  (forall u l, is_signal (s3_download S u l) = false) /\
  (forall u, is_signal (s3_public_url S u) = false) /\
  (forall u n, is_signal (s3_presigned_url S u n) = false) /\
  (forall p, is_signal (open_wb S p) = false) /\
  (forall p c, is_signal (write_all S p c) = false).

End Facade.

(* ================================================================== *)
(** * Further scenarios *)
(* ================================================================== *)

Module Scenario2.

Import Facade.
Local Open Scope string_scope.

(** An object store that holds the annexed object of [repo1] and nothing
    else, a writable disk, a plain environment, and a host where
    [/mirror] exists. *)
Definition cloud : services := {|
  s3_exists u :=
    Ok (String.eqb u "s3://fcp-indi/data/Projects/RBC/repo1/MD5E-s123--abcdef");
  s3_download u l := Ok l;
  s3_public_url u := Ok ("https://fcp-indi.s3.amazonaws.com/" ++ Py.drop 14 u);
  s3_presigned_url u n := Ok ("https://fcp-indi.s3.amazonaws.com/"
                              ++ Py.drop 14 u ++ "?X-Amz-Expires");
  open_wb p := Ok tt;
  write_all p c := Ok tt;
  environ_get name := None;
  os_exists p := Ok (String.eqb p "/mirror");
  super_init := Ok tt;
  s3client_init := Ok tt
|}.

(** The same host seen from the NeuroHackademy hub. *)
Definition hub : services := {|
  s3_exists := s3_exists cloud;
  s3_download := s3_download cloud;
  s3_public_url := s3_public_url cloud;
  s3_presigned_url := s3_presigned_url cloud;
  open_wb := open_wb cloud;
  write_all := write_all cloud;
  environ_get name :=
    if String.eqb name "JUPYTER_IMAGE"
    then Some "quay.io/arokem/nh2025:latest" else None;
  os_exists p := Ok false;
  super_init := Ok tt;
  s3client_init := Ok tt
|}.

Definition fresh : logs := mkLogs [] [].

Definition data_path (c : RBCClient) : RBCPath :=
  mkRBCPath "rbc://repo1/data.nii.gz" c None.

End Scenario2.

(* ================================================================== *)
(** * Facts about the string operations *)
(* ================================================================== *)

Module PyFacts.

Import Py.
Local Open Scope string_scope.

Lemma startswith_app (pre rest : string) : startswith pre (pre ++ rest) = true.
Proof.
  induction pre as [|a pre IH]; simpl; [reflexivity|].
  now rewrite Ascii.eqb_refl.
Qed.

Lemma startswith_inv (pre s : string) :
  startswith pre s = true -> exists rest, s = pre ++ rest.
Proof.
  revert s; induction pre as [|a pre IH]; intros s H; simpl in *.
  - now exists s.
  - destruct s as [|b s]; [discriminate|].
    apply andb_true_iff in H as [Hab Hs].
    apply Ascii.eqb_eq in Hab; subst b.
    destruct (IH _ Hs) as [rest ->]. now exists rest.
Qed.

Lemma app_assoc_str (a b c : string) : (a ++ b) ++ c = a ++ (b ++ c).
Proof. induction a; simpl; congruence. Qed.

Lemma contains_of_startswith (needle hay : string) :
  startswith needle hay = true -> contains needle hay = true.
Proof. intros H. destruct hay; simpl; now rewrite H. Qed.

(** [needle in hay] holds exactly when [hay] is some text, the needle, and
    some more text. *)
Lemma contains_iff (needle hay : string) :
  contains needle hay = true <->
  exists before after, hay = before ++ needle ++ after.
Proof.
  split.
  - induction hay as [|a hay IH]; simpl; intros H.
    + rewrite orb_false_r in H. apply startswith_inv in H as [r Hr].
      exists EmptyString, r. exact Hr.
    + apply orb_true_iff in H as [H|H].
      * apply startswith_inv in H as [r Hr].
        exists EmptyString, r. exact Hr.
      * destruct (IH H) as (b & c & ->).
        exists (String a b), c. reflexivity.
  - intros (before & after & ->).
    induction before as [|a before IH]; simpl.
    + apply contains_of_startswith, startswith_app.
    + rewrite IH. apply orb_true_r.
Qed.

Lemma has_char_app (c : ascii) (a b : string) :
  has_char c (a ++ b) = has_char c a || has_char c b.
Proof.
  induction a as [|x a IH]; simpl; [reflexivity|].
  now rewrite IH, orb_assoc.
Qed.

(** A text that contains a needle contains the needle's first character. *)
Lemma contains_has_char (c : ascii) (needle hay : string) :
  contains (String c needle) hay = true -> has_char c hay = true.
Proof.
  intros H. apply contains_iff in H as (b & a & ->).
  rewrite has_char_app. simpl. rewrite Ascii.eqb_refl.
  apply orb_true_r.
Qed.

(** ** [split] and [join] *)

Lemma split_not_nil (sep : ascii) (s : string) : split sep s <> [].
Proof.
  destruct s as [|a s]; simpl; [discriminate|].
  destruct (Ascii.eqb a sep); [discriminate|].
  destruct (split sep s); discriminate.
Qed.

Lemma split_free (sep : ascii) (s : string) :
  has_char sep s = false -> split sep s = [s].
Proof.
  induction s as [|a s IH]; simpl; intros H; [reflexivity|].
  apply orb_false_iff in H as [Ha Hs].
  now rewrite Ha, (IH Hs).
Qed.

Lemma split_app_sep (sep : ascii) (x y : string) :
  has_char sep x = false ->
  split sep (x ++ String sep y) = x :: split sep y.
Proof.
  induction x as [|a x IH]; simpl; intros H.
  - now rewrite Ascii.eqb_refl.
  - apply orb_false_iff in H as [Ha Hx].
    now rewrite Ha, (IH Hx).
Qed.

Lemma split_pieces_free (sep : ascii) (s : string) :
  Forall (fun x => has_char sep x = false) (split sep s).
Proof.
  induction s as [|a s IH]; simpl.
  - constructor; [reflexivity|constructor].
  - destruct (Ascii.eqb a sep) eqn:Ea.
    + constructor; [reflexivity|exact IH].
    + destruct (split sep s) as [|h t].
      * constructor; [simpl; now rewrite Ea|constructor].
      * inversion IH as [|? ? Hh Ht]; subst.
        constructor; [simpl; now rewrite Ea|exact Ht].
Qed.

(** Joining what [split] returns gives the text back. *)
Lemma join_split (sep : ascii) (s : string) :
  join (String sep EmptyString) (split sep s) = s.
Proof.
  induction s as [|a s IH]; simpl; [reflexivity|].
  destruct (Ascii.eqb a sep) eqn:Ea.
  - apply Ascii.eqb_eq in Ea; subst a.
    pose proof (split_not_nil sep s) as Hn.
    destruct (split sep s) as [|h t]; [contradiction|].
    simpl in *. now rewrite IH.
  - pose proof (split_not_nil sep s) as Hn.
    destruct (split sep s) as [|h t]; [contradiction|].
    destruct t; simpl in *; now rewrite <- IH.
Qed.

(** Splitting a join of separator-free pieces gives the pieces back. *)
Lemma split_join (sep : ascii) (l : list string) :
  l <> [] ->
  Forall (fun x => has_char sep x = false) l ->
  split sep (join (String sep EmptyString) l) = l.
Proof.
  induction l as [|x l IH]; intros Hn Hall; [contradiction|].
  inversion Hall as [|? ? Hx Hl]; subst.
  destruct l as [|y l].
  - simpl. now apply split_free.
  - change (join (String sep EmptyString) (x :: y :: l))
      with (x ++ String sep (join (String sep EmptyString) (y :: l))).
    rewrite split_app_sep by assumption.
    f_equal. apply IH; [discriminate|assumption].
Qed.

Lemma join_cons2 (sep x y : string) (l : list string) :
  join sep (x :: y :: l) = x ++ sep ++ join sep (y :: l).
Proof. reflexivity. Qed.

Lemma join_snoc (sep : string) (l : list string) (x y : string) :
  join sep ((x :: l) ++ [y])%list = join sep (x :: l) ++ sep ++ y.
Proof.
  revert x; induction l as [|z l IH]; intros x.
  - reflexivity.
  - cbn [List.app]. rewrite !join_cons2.
    specialize (IH z). cbn [List.app] in IH. rewrite IH.
    now rewrite !app_assoc_str.
Qed.

(** The last piece of a split is separator-free and ends the text; when
    the text has a separator, the last piece comes right after one. *)
Lemma last_split (sep : ascii) (s : string) :
  has_char sep (last_item (split sep s)) = false /\
  (s = last_item (split sep s) \/
   exists before, s = before ++ String sep (last_item (split sep s))).
Proof.
  pose proof (split_pieces_free sep s) as Hall.
  pose proof (join_split sep s) as Hj.
  pose proof (split_not_nil sep s) as Hn.
  unfold last_item.
  destruct (exists_last Hn) as (l & y & El). rewrite El in *.
  rewrite last_last. split.
  - apply Forall_app in Hall as [_ Hy]. now inversion Hy.
  - destruct l as [|x l].
    + left. simpl in Hj. now symmetry.
    + right. rewrite join_snoc in Hj.
      exists (join (String sep EmptyString) (x :: l)). now symmetry.
Qed.

Lemma last_split_sep (sep : ascii) (s : string) :
  has_char sep s = true ->
  exists before, s = before ++ String sep (last_item (split sep s)).
Proof.
  intros H. destruct (last_split sep s) as [Hfree [Heq|Hex]]; [|exact Hex].
  rewrite <- Heq in Hfree. congruence.
Qed.

(** ** [lstrip] *)

Lemma lstrip_head (c : ascii) (s : string) :
  match lstrip c s with
  | String a _ => Ascii.eqb a c = false
  | EmptyString => True
  end.
Proof.
  induction s as [|a s IH]; simpl; [exact I|].
  destruct (Ascii.eqb a c) eqn:E; [exact IH|]. simpl. exact E.
Qed.

End PyFacts.

(* ================================================================== *)
(** * Facts about the monad *)
(* ================================================================== *)

Module MFacts.

Lemma uniform_ret {A} (a : A) : uniform (ret a).
Proof. exists (Ok a), []. intros t. unfold ret. now rewrite app_nil_r. Qed.

Lemma uniform_raise {A} (e : exn) : uniform (@raise A e).
Proof. exists (Err e), []. intros t. unfold raise. now rewrite app_nil_r. Qed.

Lemma uniform_lift {A} (r : result A) : uniform (lift r).
Proof. exists r, []. intros t. unfold lift. now rewrite app_nil_r. Qed.

Lemma uniform_call {A} (ev : event) (r : result A) : uniform (call ev r).
Proof. exists r, [ev]. intros t. reflexivity. Qed.

Lemma uniform_bind {A B} (m : M A) (k : A -> M B) :
  uniform m -> (forall a, uniform (k a)) -> uniform (bind m k).
Proof.
  intros (r & evs & Hm) Hk. destruct r as [a|e].
  - destruct (Hk a) as (r' & evs' & Hka).
    exists r', (evs ++ evs')%list. intros t.
    unfold bind. now rewrite Hm, Hka, app_assoc.
  - exists (Err e), evs. intros t. unfold bind. now rewrite Hm.
Qed.

(** Running a uniform computation again, after itself, gives the same
    outcome. *)
Lemma uniform_again {A} (m : M A) (t : trace) :
  uniform m -> fst (m (snd (m t))) = fst (m t).
Proof. intros (r & evs & Hm). now rewrite !Hm. Qed.

Lemma network_calls_app (t u : trace) :
  network_calls (t ++ u) = network_calls t + network_calls u.
Proof. unfold network_calls. now rewrite filter_app, length_app. Qed.

End MFacts.

Ltac uniform_step :=
  match goal with
  | |- uniform (bind _ _) => apply MFacts.uniform_bind; [|intros ?]
  | |- uniform (ret _) => apply MFacts.uniform_ret
  | |- uniform (raise _) => apply MFacts.uniform_raise
  | |- uniform (lift _) => apply MFacts.uniform_lift
  | |- uniform (call _ _) => apply MFacts.uniform_call
  | |- uniform (match ?x with _ => _ end) => destruct x
  | |- uniform (if ?b then _ else _) => destruct b
  end.

(* ================================================================== *)
(** * The identifier parser *)
(* ================================================================== *)

Module ParserFacts.

Import Py PyFacts Client.
Local Open Scope string_scope.

(** After [lstrip('/')] a path has no root: its parts are the kept pieces
    of its split. *)
Lemma parts_lstrip (s : string) :
  Posix.parts (Posix.parse (lstrip slash s)) =
  filter Posix.keep (split slash (lstrip slash s)).
Proof.
  pose proof (lstrip_head slash s) as H.
  destruct (lstrip slash s) as [|a r]; [reflexivity|].
  unfold Posix.parse, Posix.splitroot. now rewrite H.
Qed.

Lemma slash_free_lstrip (x : string) : slash_free x -> lstrip slash x = x.
Proof.
  unfold slash_free. destruct x as [|a x]; simpl; [reflexivity|].
  intros H. apply orb_false_iff in H as [-> _]. reflexivity.
Qed.

(** Leading separators only add empty pieces, which are not kept. *)
Lemma kept_lstrip_join (raw : list string) :
  Forall slash_free raw ->
  filter Posix.keep (split slash (lstrip slash (join "/" raw))) =
  filter Posix.keep raw.
Proof.
  induction raw as [|x raw IH]; intros Hall; [reflexivity|].
  inversion Hall as [|? ? Hx Hraw]; subst.
  destruct raw as [|y raw].
  - simpl join. rewrite (slash_free_lstrip _ Hx), (split_free _ _ Hx).
    reflexivity.
  - rewrite join_cons2. destruct x as [|a x].
    + change (EmptyString ++ "/" ++ join "/" (y :: raw))
        with (String slash (join "/" (y :: raw))).
      cbn [lstrip]. rewrite Ascii.eqb_refl. now rewrite (IH Hraw).
    + unfold slash_free in Hx. simpl in Hx.
      apply orb_false_iff in Hx as [Ha Hx].
      change (String a x ++ "/" ++ join "/" (y :: raw))
        with (String a (x ++ String slash (join "/" (y :: raw)))).
      cbn [lstrip]. rewrite Ha.
      change (String a (x ++ String slash (join "/" (y :: raw))))
        with (String a x ++ String slash (join "/" (y :: raw))).
      rewrite split_app_sep by (simpl; now rewrite Ha, Hx).
      change (join "/" (y :: raw))
        with (join (String slash EmptyString) (y :: raw)).
      rewrite (split_join slash (y :: raw)); [reflexivity|discriminate|].
      exact Hraw.
Qed.

(** The parser on any string, by the pieces of the text that is left once
    an exactly spelled scheme is removed. *)
Lemma path_split_repo_eq (path : pathlike) :
  _path_split_repo path =
  let s := str_of path in
  let body := if has_scheme s then drop 6 s else s in
  match filter Posix.keep (split slash body) with
  | [] => Err (IndexError "tuple index out of range")
  | repo :: rest => Ok (repo, join "/" rest)
  end.
Proof.
  unfold _path_split_repo. cbv zeta.
  set (body := if has_scheme (str_of path) then _ else _).
  rewrite parts_lstrip.
  rewrite <- (join_split slash body) at 1.
  rewrite kept_lstrip_join; [reflexivity|].
  apply split_pieces_free.
Qed.

End ParserFacts.

(* ================================================================== *)
(** * The claims: the identifier parser *)
(* ================================================================== *)

Import Py PyFacts Client.
Local Open Scope string_scope.




(** C10.  A path that is empty once the scheme and the leading separators
    are removed has no parts, and selecting the first one raises
    [IndexError]. *)
Theorem path_split_repo_empty (path : pathlike) :
  lstrip slash (if has_scheme (str_of path)
                then drop 6 (str_of path) else str_of path) = EmptyString ->
  _path_split_repo path = Err (IndexError "tuple index out of range").
Proof.
  intros H. unfold _path_split_repo. cbv zeta. now rewrite H.
Qed.

Lemma path_split_repo_empty_witness :
  _path_split_repo "rbc://" = Err (IndexError "tuple index out of range").
Proof. exact (path_split_repo_empty (AStr "rbc://") eq_refl). Defined.

(* ================================================================== *)
(** * The claims: resolution *)
(* ================================================================== *)

Import Scenario.

Lemma uniform_obtain_bytes (E : env) (self : RBCClient) (path : pathlike)
  (repo tail : string) : uniform (obtain_bytes E self path repo tail).
Proof.
  unfold obtain_bytes, _url_slurp, Fs.is_dir, Fs.is_file, Fs.readlink.
  repeat uniform_step.
Qed.

Lemma uniform_get_s3_path (E : env) (self : RBCClient) (path : pathlike) :
  uniform (_get_s3_path E self path).
Proof.
  unfold _get_s3_path.
  apply MFacts.uniform_bind; [apply MFacts.uniform_lift|intros [repo tail]].
  apply MFacts.uniform_bind; [apply uniform_obtain_bytes|intros r].
  repeat uniform_step.
Qed.

(** C1, as the claim states it, fails: bytes that hold the marker but are
    not well-formed UTF-8 make the resolution raise [UnicodeDecodeError]. *)
Lemma annexed_not_text :
  fst (obtain_bytes world remote_client "rbc://repo1/blob.bin"
         "repo1" "blob.bin" [])
    = Ok (inr (Some (raw_url "blob.bin"), blob)) /\
  contains annex_marker blob = true /\
  fst (_get_s3_path world remote_client "rbc://repo1/blob.bin" [])
    = Err UnicodeDecodeError.
Proof. repeat split. Qed.

(** C1 (amended).  When the first stage of the resolution obtains
    indirection bytes that hold the marker, the outcome is decided by
    whether they are well-formed UTF-8.  If they are, the resolution
    returns the fixed prefix followed by the repository, ['/'] and the
    content key, where the content key is what follows the last ['/'] of
    the bytes.  If they are not, the resolution raises
    [UnicodeDecodeError].  In both cases no call is made beyond those of
    the first stage. *)
Theorem annexed_resolution
  (E : env) (self : RBCClient) (path : pathlike) (repo tail : string)
  (ghpath : option string) (dat : Py.bytes) (t t' : trace) :
  _path_split_repo path = Ok (repo, tail) ->
  obtain_bytes E self path repo tail t = (Ok (inr (ghpath, dat)), t') ->
  contains annex_marker dat = true ->
  (utf8_valid dat = true ->
   exists before key : string,
     dat = before ++ "/" ++ key /\
     slash_free key /\
     _get_s3_path E self path t =
       (Ok ("s3://fcp-indi/data/Projects/RBC/" ++ repo ++ "/" ++ key), t')) /\
  (utf8_valid dat = false ->
   _get_s3_path E self path t = (Err UnicodeDecodeError, t')).
Proof.
  intros Hsplit Hbytes Hmark. split; intros Hutf.
  - destruct (last_split_sep slash dat) as [before Hbefore].
    { exact (contains_has_char _ _ _ Hmark). }
    exists before, (last_item (split slash dat)). split; [exact Hbefore|].
    split; [apply last_split|].
    unfold _get_s3_path, bind, lift. rewrite Hsplit, Hbytes, Hmark.
    unfold decode_utf8. now rewrite Hutf.
  - unfold _get_s3_path, bind, lift. rewrite Hsplit, Hbytes, Hmark.
    unfold decode_utf8. now rewrite Hutf.
Qed.

Lemma annexed_resolution_witness :
  fst (_get_s3_path world remote_client "rbc://repo1/data.nii.gz" [])
    = Ok "s3://fcp-indi/data/Projects/RBC/repo1/MD5E-s123--abcdef" /\
  _get_s3_path world remote_client "rbc://repo1/blob.bin" []
    = (Err UnicodeDecodeError, [EvHttpGet (raw_url "blob.bin")]).
Proof.
  split.
  - destruct (proj1 (annexed_resolution world remote_client
                       (AStr "rbc://repo1/data.nii.gz") "repo1" "data.nii.gz"
                       (Some (raw_url "data.nii.gz")) pointer
                       [] [EvHttpGet (raw_url "data.nii.gz")]
                       eq_refl eq_refl eq_refl) eq_refl)
      as (before & key & _ & _ & H).
    reflexivity.
  - exact (proj2 (annexed_resolution world remote_client
                    (AStr "rbc://repo1/blob.bin") "repo1" "blob.bin"
                    (Some (raw_url "blob.bin")) blob
                    [] [EvHttpGet (raw_url "blob.bin")]
                    eq_refl eq_refl eq_refl) eq_refl).
Defined.

(** The same pointer read from a link of the local mirror. *)
Example annexed_resolution_mirror :
  _get_s3_path world mirror_client "rbc://repo1/data.nii.gz" [] =
  (Ok "s3://fcp-indi/data/Projects/RBC/repo1/MD5E-s123--abcdef",
   [EvIsDir "/mirror/repo1/data.nii.gz";
    EvIsFile "/mirror/repo1/data.nii.gz";
    EvReadlink "/mirror/repo1/data.nii.gz"]).
Proof. reflexivity. Qed.

(** Without a local mirror, bytes that lack the marker are signalled as
    they were fetched, with the raw-content URL they were fetched from. *)
Lemma literal_remote
  (E : env) (path : pathlike) (repo tail : string) (dat : Py.bytes)
  (t : trace) :
  _path_split_repo path = Ok (repo, tail) ->
  urlopen_read E ("https://raw.githubusercontent.com/ReproBrainChart/"
                  ++ repo ++ "/refs/heads/main/" ++ tail) = Ok dat ->
  contains annex_marker dat = false ->
  fst (_get_s3_path E (mkClient None) path t) =
  Err (RBCFileException
         ("https://raw.githubusercontent.com/ReproBrainChart/"
          ++ repo ++ "/refs/heads/main/" ++ tail) dat).
Proof.
  intros Hsplit Hget Hmark.
  unfold _get_s3_path, obtain_bytes, _get_github_path, _url_slurp,
    bind, lift, call, ret, raise.
  cbn [_github_path]. rewrite Hsplit. cbv beta iota.
  rewrite Hget. cbv beta iota. rewrite Hmark. reflexivity.
Qed.

(** With a local mirror, bytes read from a link that lack the marker reach
    the [raise] statement with [ghpath] unassigned: no literal content is
    signalled, whatever the bytes. *)
Lemma literal_mirror
  (E : env) (self : RBCClient) (path : pathlike) (repo tail : string)
  (dat : Py.bytes) (t t' : trace) :
  _path_split_repo path = Ok (repo, tail) ->
  obtain_bytes E self path repo tail t = (Ok (inr (None, dat)), t') ->
  contains annex_marker dat = false ->
  _get_s3_path E self path t = (Err (UnboundLocalError "ghpath"), t').
Proof.
  intros Hsplit Hbytes Hmark.
  unfold _get_s3_path, bind, lift. now rewrite Hsplit, Hbytes, Hmark.
Qed.

(** C2 at a dangling link of the local mirror whose target lacks the
    marker: the bytes are read, and the resolution ends in
    [UnboundLocalError] instead of the literal-content signal. *)
Theorem literal_mirror_unbound :
  fst (obtain_bytes world mirror_client "rbc://repo1/notes.txt"
         "repo1" "notes.txt" [])
    = Ok (inr (None, "elsewhere/notes.txt")) /\
  contains annex_marker "elsewhere/notes.txt" = false /\
  fst (_get_s3_path world mirror_client "rbc://repo1/notes.txt" [])
    = Err (UnboundLocalError "ghpath").
Proof. repeat split. Qed.

(** C9.  Resolving a path, and resolving it again after the calls of the
    first resolution, gives the same outcome: the same object-store
    location, the same literal-content signal (URL and bytes), or the same
    failure. *)
Theorem resolve_twice (E : env) (self : RBCClient) (path : pathlike)
  (t : trace) :
  fst (_get_s3_path E self path (snd (_get_s3_path E self path t))) =
  fst (_get_s3_path E self path t).
Proof. apply MFacts.uniform_again, uniform_get_s3_path. Qed.

(* ================================================================== *)
(** * The claims: status, listing, kind and the mutating operations *)
(* ================================================================== *)

(** C7, as the claim states it, fails: the origin the synthesized status
    carries is the string [github://], and no field of the record is the
    string [inline]. *)
Lemma stat_origin_not_inline :
  fst (_get_s3_path world remote_client (ARBCPath participants_path) [])
    = Err (RBCFileException (raw_url "participants.tsv") participants) /\
  exists (s : stat_result) (p' : RBCPath),
    fst (CloudPath.stat world participants_path []) = Ok (s, p') /\
    st_dev s = PStr "github://" /\
    st_dev s <> PStr "inline" /\
    ~ In (PStr "inline")
        [st_mode s; st_ino s; st_dev s; st_nlink s; st_uid s; st_gid s;
         st_size s; st_atime s; st_mtime s; st_ctime s].
Proof.
  split; [reflexivity|].
  eexists _, _. split; [reflexivity|]. split; [reflexivity|].
  split; [discriminate|].
  simpl. intuition discriminate.
Qed.

(** C7 (amended).  On a path object with no cached status whose resolution
    signals literal content, [stat] returns a synthesized record whose
    origin slot ([st_dev]) is the string [github://], whose size is the
    byte length of the content and whose time stamp is the clock read once
    the resolution is over; the record is cached in the object. *)
Theorem stat_of_literal
  (E : env) (self : RBCPath) (url : string) (contents : Py.bytes)
  (t t' : trace) :
  _stat self = None ->
  _get_s3_path E (client self) (ARBCPath self) t
    = (Err (RBCFileException url contents), t') ->
  exists (s : stat_result) (self' : RBCPath),
    CloudPath.stat E self t = (Ok (s, self'), (t' ++ [EvTime])%list) /\
    st_dev s = PStr "github://" /\
    st_size s = PInt (Z.of_nat (String.length contents)) /\
    st_mtime s = PInt (time_time E t') /\
    _stat self' = Some s /\
    cloud_path self' = cloud_path self.
Proof.
  intros Hcache Hres.
  eexists _, _. split.
  - unfold CloudPath.stat. rewrite Hcache.
    unfold CloudPath.s3path, to_s3, try_rbc, bind.
    rewrite Hres. reflexivity.
  - repeat split.
Qed.

Lemma stat_of_literal_witness :
  exists (s : stat_result) (p' : RBCPath),
    CloudPath.stat world participants_path [] =
      (Ok (s, p'), [EvHttpGet (raw_url "participants.tsv"); EvTime]) /\
    st_dev s = PStr "github://" /\
    st_size s = PInt 37 /\
    st_mtime s = PInt 1750000001.
Proof.
  destruct (stat_of_literal world participants_path
              (raw_url "participants.tsv") participants
              [] [EvHttpGet (raw_url "participants.tsv")]
              eq_refl eq_refl)
    as (s & p' & Hrun & Hdev & Hsize & Htime & _).
  exists s, p'. repeat split; assumption.
Defined.

(** C5.  Each mutating operation fails with the read-only failure,
    whatever its arguments and whatever happened before, without a single
    external call: the trace is handed back as it was received. *)
Theorem mutations_fail_read_only
  (c : RBCClient) (p : RBCPath) (src dst path cloud : pathlike)
  (local_path : string) (remove_src missing_ok parents exist_ok : bool) :
  fails_read_only (_move_file c src dst remove_src) /\
  fails_read_only (_remove c path missing_ok) /\
  fails_read_only (_upload_file c local_path cloud) /\
  fails_read_only (CloudPath.mkdir p parents exist_ok) /\
  fails_read_only (CloudPath.touch p exist_ok).
Proof.
  repeat split; intros t; eexists; (split; [reflexivity|]);
    unfold ReadOnlyError; auto.
Qed.

(** C8.  A recursive listing fails with [NotImplementedError] for every
    client and path, before the path is parsed or any source is asked:
    the trace is handed back as it was received. *)
Theorem recursive_listing_unsupported
  (E : env) (self : RBCClient) (cloud_path : pathlike) (t : trace) :
  _list_dir E self cloud_path true t =
  (Err (NotImplementedError
          "recursive listing of RBC projects is not supported"), t).
Proof. reflexivity. Qed.

(** What [_path_kind] answers, by what the metadata query returned. *)
Lemma path_kind_outcome
  (E : env) (self : RBCClient) (cloud_path : pathlike) (json : pyval)
  (t t' : trace) :
  _get_github_json E self cloud_path t = (Ok json, t') ->
  _path_kind E self cloud_path t =
  (Ok (if is_list json then "file" else "directory"), t').
Proof.
  intros H. unfold _path_kind, bind. rewrite H.
  destruct (is_list json); reflexivity.
Qed.

(** C3 at a directory of the local mirror: the query returns a list, the
    sibling [RBCPath.is_dir] answers true, and [_path_kind] answers
    [file]; at a link to an annexed file the query returns a single entry
    and [_path_kind] answers [directory]. *)
Theorem path_kind_swapped :
  (exists items,
     fst (_get_github_json world mirror_client "rbc://repo1/sub" [])
       = Ok (PList items)) /\
  fst (CloudPath.is_dir world (sub_path mirror_client) []) = Ok true /\
  fst (_path_kind world mirror_client "rbc://repo1/sub" []) = Ok "file" /\
  (exists entries,
     fst (_get_github_json world mirror_client "rbc://repo1/data.nii.gz" [])
       = Ok (PDict entries)) /\
  fst (_path_kind world mirror_client "rbc://repo1/data.nii.gz" [])
    = Ok "directory".
Proof.
  split; [eexists; reflexivity|].
  split; [reflexivity|]. split; [reflexivity|].
  split; [eexists; reflexivity|reflexivity].
Qed.

(** With a local mirror the metadata query makes no network call. *)
Lemma mirror_query_offline
  (E : env) (self : RBCClient) (path : pathlike) (t : trace) :
  _github_path self <> None ->
  network_calls (snd (_get_github_json E self path t)) = network_calls t.
Proof.
  intros Hm. unfold _get_github_json.
  destruct (_github_path self) as [gh|]; [clear Hm|contradiction].
  destruct (_path_split_repo path) as [[repo tail]|e] eqn:Hs;
    cbv beta iota delta [bind lift Fs.is_dir call]; rewrite ?Hs;
    [|reflexivity].
  destruct (os_is_dir E _) as [[|]|e];
    cbv beta iota delta [bind Fs.iterdir Fs.lstat call ret raise stat_truth].
  - destruct (os_listdir E _); cbv beta iota; cbn [snd];
      rewrite !MFacts.network_calls_app; unfold network_calls; simpl; lia.
  - destruct (os_lstat E _); cbv beta iota; cbn [snd];
      rewrite !MFacts.network_calls_app; unfold network_calls; simpl; lia.
  - cbn [snd]. rewrite MFacts.network_calls_app.
    unfold network_calls; simpl; lia.
Qed.

(** Building a path object from a string that starts with the scheme
    succeeds when a default client is at hand and the base class accepts
    the string. *)
Lemma new_RBCPath_ok (E : env) (rest : string) (c : RBCClient) :
  get_default_client E = Ok tt ->
  cloudpath_init E ("rbc://" ++ rest) = Ok tt ->
  new_RBCPath E ("rbc://" ++ rest) c = Ok (mkRBCPath ("rbc://" ++ rest) c None).
Proof.
  intros Hdc Hinit. unfold new_RBCPath. rewrite Hdc.
  change (startswith "rbc://" (lower ("rbc://" ++ rest))) with true.
  cbv iota. now rewrite Hinit.
Qed.

(** The paths a listing yields when every entry holds a string, as the
    entries of a remote listing do, and each path object can be built. *)
Lemma gen_run_strings (E : env) (g : generator) (entries : list string) :
  get_default_client E = Ok tt ->
  Forall (fun x => cloudpath_init E ("rbc://" ++ gen_repo g ++ "/" ++ x)
                   = Ok tt) entries ->
  gen_run E g (map (fun x => PDict [("path", PStr x)]) entries) =
  (map (fun x => mkRBCPath ("rbc://" ++ gen_repo g ++ "/" ++ x)
                   (gen_self g) None) entries, None).
Proof.
  intros Hdc Hall. induction Hall as [|x entries Hx _ IH]; [reflexivity|].
  cbn [map gen_run]. unfold gen_body at 1.
  cbn [subscript assoc String.eqb Ascii.eqb Bool.eqb format].
  rewrite (new_RBCPath_ok E _ _ Hdc Hx), IH. reflexivity.
Qed.

(** The paths a listing yields when every entry holds a [Path] object, as
    the entries of a local-mirror listing do, and each path object can be
    built. *)
Lemma gen_run_paths (E : env) (g : generator) (ps : list Posix.PurePath) :
  get_default_client E = Ok tt ->
  Forall (fun p => cloudpath_init E ("rbc://" ++ gen_repo g ++ "/"
                                     ++ Posix.to_str p) = Ok tt) ps ->
  gen_run E g (map (fun p => PDict [("path", PPath p)]) ps) =
  (map (fun p => mkRBCPath ("rbc://" ++ gen_repo g ++ "/" ++ Posix.to_str p)
                   (gen_self g) None) ps, None).
Proof.
  intros Hdc Hall. induction Hall as [|p ps Hp _ IH]; [reflexivity|].
  cbn [map gen_run]. unfold gen_body at 1.
  cbn [subscript assoc String.eqb Ascii.eqb Bool.eqb format].
  rewrite (new_RBCPath_ok E _ _ Hdc Hp), IH. reflexivity.
Qed.

(** A remote listing: the raw-content URL of the path is fetched, and each
    entry's string is put after the repository. *)
Lemma remote_listing
  (E : env) (path : pathlike) (repo tail : string) (dat : Py.bytes)
  (entries : list string) (t : trace) :
  _path_split_repo path = Ok (repo, tail) ->
  urlopen_read E ("https://raw.githubusercontent.com/ReproBrainChart/"
                  ++ repo ++ "/refs/heads/main/" ++ tail) = Ok dat ->
  json_loads E dat = Ok (PList (map (fun x => PDict [("path", PStr x)])
                                    entries)) ->
  get_default_client E = Ok tt ->
  Forall (fun x => cloudpath_init E ("rbc://" ++ repo ++ "/" ++ x) = Ok tt)
         entries ->
  exists (g : generator) (t' : trace),
    _list_dir E (mkClient None) path false t = (Ok g, t') /\
    consume E g =
    (map (fun x => mkRBCPath ("rbc://" ++ repo ++ "/" ++ x)
                     (mkClient None) None) entries, None).
Proof.
  intros Hsplit Hget Hjson Hdc Hall. eexists _, _. split.
  - unfold _list_dir, _get_github_json, _get_github_path, _url_slurp.
    cbv beta iota delta [bind lift call ret raise _github_path].
    rewrite Hsplit. cbv beta iota. rewrite Hget, Hjson. reflexivity.
  - unfold consume. cbn [gen_source list_items].
    exact (gen_run_strings E (mkGen repo (mkClient None) _) entries Hdc Hall).
Qed.

(** A local-mirror listing of a directory: no network call, and each
    yielded path holds, after the repository, the whole location of the
    child inside the mirror. *)
Lemma mirror_listing
  (E : env) (self : RBCClient) (path : pathlike) (gh : Posix.PurePath)
  (repo tail : string) (names : list string) (t : trace) :
  _github_path self = Some gh ->
  _path_split_repo path = Ok (repo, tail) ->
  os_is_dir E (Posix.to_str (gh // repo // tail)%path) = Ok true ->
  os_listdir E (Posix.to_str (gh // repo // tail)%path) = Ok names ->
  get_default_client E = Ok tt ->
  Forall (fun n =>
            cloudpath_init E
              ("rbc://" ++ repo ++ "/" ++
               Posix.to_str (Posix.child (gh // repo // tail)%path n))
            = Ok tt) names ->
  exists (g : generator) (t' : trace),
    _list_dir E self path false t = (Ok g, t') /\
    network_calls t' = network_calls t /\
    consume E g =
    (map (fun n =>
            mkRBCPath ("rbc://" ++ repo ++ "/" ++
                       Posix.to_str (Posix.child (gh // repo // tail)%path n))
                      self None) names, None).
Proof.
  intros Hgh Hsplit Hdir Hls Hdc Hall. eexists _, _. split; [|split].
  - unfold _list_dir, _get_github_json. rewrite Hgh.
    cbv beta iota delta [bind lift call ret raise Fs.is_dir Fs.iterdir].
    rewrite Hsplit. cbv beta iota. rewrite Hdir. cbv beta iota.
    rewrite Hls. reflexivity.
  - rewrite !MFacts.network_calls_app. unfold network_calls; simpl; lia.
  - unfold consume. cbn [gen_source list_items].
    rewrite (gen_run_paths E (mkGen repo self _) _ Hdc).
    + now rewrite map_map.
    + apply Forall_map. exact Hall.
Qed.

(** C4 in the scenario of the claim.  The remote listing of [repo1/sub]
    yields [rbc://repo1/sub/a.txt] and [rbc://repo1/sub/b.txt].  The local
    mirror holds [repo1/sub] as a real directory with the children [a.txt]
    and [b.txt]; its listing makes no network call, and yields paths that
    carry the location of the mirror instead.  The child the remote
    listing names resolves on the mirror; the one the mirror listing
    yields does not. *)
Theorem mirror_listing_differs :
  yielded (_list_dir world remote_client "rbc://repo1/sub" false []) =
    (["rbc://repo1/sub/a.txt"; "rbc://repo1/sub/b.txt"], None) /\
  yielded (_list_dir world mirror_client "rbc://repo1/sub" false []) =
    (["rbc://repo1//mirror/repo1/sub/a.txt";
      "rbc://repo1//mirror/repo1/sub/b.txt"], None) /\
  network_calls
    (snd (_list_dir world mirror_client "rbc://repo1/sub" false [])) = 0 /\
  fst (_get_s3_path world mirror_client "rbc://repo1/sub/a.txt" [])
    = Ok "s3://fcp-indi/data/Projects/RBC/repo1/sub/a.txt" /\
  fst (_get_s3_path world mirror_client
         "rbc://repo1//mirror/repo1/sub/a.txt" [])
    = Err (FileNotFoundError "/mirror/repo1/mirror/repo1/sub/a.txt").
Proof. repeat split. Qed.

(* ================================================================== *)
(** * Further properties: the identifier parser and the URLs *)
(* ================================================================== *)

Module ParserMore.

Import Py PyFacts Client.
Local Open Scope string_scope.

Lemma keep_true (x : string) :
  Posix.keep x = true <-> x <> EmptyString /\ x <> ".".
Proof.
  unfold Posix.keep. rewrite andb_true_iff, !negb_true_iff.
  split; intros [H1 H2]; split.
  - intros ->. discriminate.
  - intros ->. discriminate.
  - apply String.eqb_neq. exact H1.
  - apply String.eqb_neq. exact H2.
Qed.

Lemma filter_all {A} (f : A -> bool) (l : list A) :
  Forall (fun x => f x = true) l -> filter f l = l.
Proof.
  induction 1 as [|x l Hx _ IH]; simpl; [reflexivity|].
  now rewrite Hx, IH.
Qed.

Lemma Forall_filter_keep {A} (P : A -> Prop) (f : A -> bool) (l : list A) :
  Forall P l -> Forall (fun x => f x = true /\ P x) (filter f l).
Proof.
  induction 1 as [|x l Hx _ IH]; simpl; [constructor|].
  destruct (f x) eqn:E; [constructor; auto|exact IH].
Qed.

(** The kept pieces behind a successful parse. *)
Lemma path_split_repo_pieces (path : pathlike) (repo tail : string) :
  _path_split_repo path = Ok (repo, tail) ->
  exists rest,
    tail = join "/" rest /\
    Forall (fun x => Posix.keep x = true /\ slash_free x) (repo :: rest).
Proof.
  rewrite ParserFacts.path_split_repo_eq. cbv zeta.
  set (body := if has_scheme (str_of path) then _ else _).
  pose proof (Forall_filter_keep _ Posix.keep _ (split_pieces_free slash body))
    as Hall.
  destruct (filter Posix.keep (split slash body)) as [|r rest];
    [discriminate|].
  intros H. injection H as <- <-. exists rest. split; [reflexivity|exact Hall].
Qed.

Lemma split_snoc_sep (sep : ascii) (s : string) :
  split sep (s ++ String sep EmptyString) = (split sep s ++ [EmptyString])%list.
Proof.
  induction s as [|a s IH]; simpl.
  - now rewrite Ascii.eqb_refl.
  - destruct (Ascii.eqb a sep); rewrite IH; [reflexivity|].
    pose proof (split_not_nil sep s) as Hn.
    destruct (split sep s); [contradiction|reflexivity].
Qed.

Lemma app_inv_head_str (a x y : string) : a ++ x = a ++ y -> x = y.
Proof. induction a; simpl; intros H; [exact H|]. injection H. auto. Qed.

(** Two texts cut at their first separator agree piece by piece. *)
Lemma first_piece_unique (a b x y : string) :
  slash_free a -> slash_free b ->
  a ++ String slash x = b ++ String slash y -> a = b /\ x = y.
Proof.
  unfold slash_free. revert b.
  induction a as [|c a IH]; intros [|d b] Ha Hb H; simpl in *.
  - injection H as ->. auto.
  - injection H as <- _. rewrite Ascii.eqb_refl in Hb. discriminate.
  - injection H as -> _. rewrite Ascii.eqb_refl in Ha. discriminate.
  - injection H as -> H.
    apply orb_false_iff in Ha as [_ Ha]. apply orb_false_iff in Hb as [_ Hb].
    destruct (IH b Ha Hb H) as [-> ->]. auto.
Qed.

End ParserMore.

Import ParserMore.

(** X1.  A successful parse returns a repository that is not empty, is
    not ["."] and holds no ['/'], and a tail that is a join, with single
    ['/'], of pieces of that same kind: no leading, trailing or doubled
    separator and no ["."] piece is left in it. *)
Theorem path_split_repo_shape (path : pathlike) (repo tail : string) :
  _path_split_repo path = Ok (repo, tail) ->
  repo <> EmptyString /\ repo <> "." /\ slash_free repo /\
  exists rest : list string,
    tail = join "/" rest /\
    Forall (fun x => x <> EmptyString /\ x <> "." /\ slash_free x) rest.
Proof.
  intros H. destruct (path_split_repo_pieces _ _ _ H) as (rest & Ht & Hall).
  inversion Hall as [|? ? [Hk Hf] Hrest]; subst.
  apply keep_true in Hk as [H1 H2]. repeat split; try assumption.
  exists rest. split; [reflexivity|].
  eapply Forall_impl; [|exact Hrest].
  intros x [Hkx Hfx]. apply keep_true in Hkx as [? ?]. auto.
Qed.

Lemma path_split_repo_shape_witness :
  "repo1" <> EmptyString /\ "repo1" <> "." /\ slash_free "repo1" /\
  exists rest : list string,
    "sub/a.txt" = join "/" rest /\
    Forall (fun x => x <> EmptyString /\ x <> "." /\ slash_free x) rest.
Proof.
  exact (path_split_repo_shape (AStr "RBC:///repo1/./sub//a.txt")
           "repo1" "sub/a.txt" eq_refl).
Defined.

(** X2.  What the parser returns is a normal form: the path written again
    from the repository and the tail, [rbc://<repo>/<tail>], parses to the
    same repository and the same tail. *)
Theorem path_split_repo_roundtrip (path : pathlike) (repo tail : string) :
  _path_split_repo path = Ok (repo, tail) ->
  _path_split_repo (AStr ("rbc://" ++ repo ++ "/" ++ tail)) = Ok (repo, tail).
Proof.
  intros H. destruct (path_split_repo_pieces _ _ _ H) as (rest & -> & Hall).
  inversion Hall as [|? ? [Hk Hf] Hrest]; subst.
  rewrite ParserFacts.path_split_repo_eq.
  change (str_of (AStr ("rbc://" ++ repo ++ "/" ++ join "/" rest)))
    with ("rbc://" ++ repo ++ "/" ++ join "/" rest).
  cbv zeta.
  change (if has_scheme ("rbc://" ++ repo ++ "/" ++ join "/" rest)
          then drop 6 ("rbc://" ++ repo ++ "/" ++ join "/" rest)
          else "rbc://" ++ repo ++ "/" ++ join "/" rest)
    with (repo ++ String slash (join (String slash EmptyString) rest)).
  rewrite split_app_sep by exact Hf.
  destruct rest as [|y rest].
  - cbn [join split filter]. rewrite Hk. reflexivity.
  - rewrite split_join; [|discriminate|].
    + rewrite (filter_all Posix.keep (repo :: y :: rest)); [reflexivity|].
      eapply Forall_impl; [|exact Hall]. now intros x [? _].
    + eapply Forall_impl; [|exact Hrest]. now intros x [_ ?].
Qed.

Lemma path_split_repo_roundtrip_witness :
  _path_split_repo (AStr ("rbc://" ++ "repo1" ++ "/" ++ "sub/a.txt"))
  = Ok ("repo1", "sub/a.txt").
Proof.
  exact (path_split_repo_roundtrip (AStr "RBC:///repo1/./sub//a.txt")
           "repo1" "sub/a.txt" eq_refl).
Defined.

(** X3.  Behind the scheme, the two spellings [rbc://] and [RBC://] parse
    alike, and one more ['/'] right after the scheme or at the end of the
    path changes nothing. *)
Theorem path_split_repo_separators (body : string) :
  _path_split_repo (AStr ("RBC://" ++ body))
    = _path_split_repo (AStr ("rbc://" ++ body)) /\
  _path_split_repo (AStr ("rbc://" ++ "/" ++ body))
    = _path_split_repo (AStr ("rbc://" ++ body)) /\
  _path_split_repo (AStr ("rbc://" ++ body ++ "/"))
    = _path_split_repo (AStr ("rbc://" ++ body)).
Proof.
  split; [reflexivity|]. split.
  - unfold _path_split_repo. cbn [str_of]. cbv zeta.
    change (if has_scheme ("rbc://" ++ "/" ++ body)
            then drop 6 ("rbc://" ++ "/" ++ body)
            else "rbc://" ++ "/" ++ body)
      with (String slash body).
    change (if has_scheme ("rbc://" ++ body)
            then drop 6 ("rbc://" ++ body) else "rbc://" ++ body)
      with body.
    cbn [lstrip]. now rewrite Ascii.eqb_refl.
  - rewrite !ParserFacts.path_split_repo_eq. cbn [str_of]. cbv zeta.
    change (if has_scheme ("rbc://" ++ body ++ "/")
            then drop 6 ("rbc://" ++ body ++ "/")
            else "rbc://" ++ body ++ "/")
      with (body ++ String slash EmptyString).
    change (if has_scheme ("rbc://" ++ body)
            then drop 6 ("rbc://" ++ body) else "rbc://" ++ body)
      with body.
    rewrite split_snoc_sep, filter_app. cbn [filter Posix.keep String.eqb negb andb].
    now rewrite app_nil_r.
Qed.

(** X4.  The raw-content URL and the API URL name the parsed path and
    nothing else: two paths that get the same URL have the same repository
    and the same tail. *)
Theorem github_urls_injective (p q : pathlike) (u : string) :
  (_get_github_path p = Ok u /\ _get_github_path q = Ok u) \/
  (_get_github_apipath p = Ok u /\ _get_github_apipath q = Ok u) ->
  _path_split_repo p = _path_split_repo q.
Proof.
  unfold _get_github_path, _get_github_apipath.
  destruct (_path_split_repo p) as [[r1 t1]|e1] eqn:Hp;
  destruct (_path_split_repo q) as [[r2 t2]|e2] eqn:Hq;
    intros [[H1 H2]|[H1 H2]]; try discriminate.
  - injection H1 as <-. injection H2 as H2.
    destruct (path_split_repo_pieces _ _ _ Hp) as (? & _ & Hall1).
    destruct (path_split_repo_pieces _ _ _ Hq) as (? & _ & Hall2).
    apply Forall_inv in Hall1 as [_ Hf1]. apply Forall_inv in Hall2 as [_ Hf2].
    change (r2 ++ String slash ("refs/heads/main/" ++ t2)
            = r1 ++ String slash ("refs/heads/main/" ++ t1)) in H2.
    destruct (first_piece_unique _ _ _ _ Hf2 Hf1 H2) as [-> Ht].
    apply (app_inv_head_str "refs/heads/main/") in Ht. now subst.
  - injection H1 as <-. injection H2 as H2.
    destruct (path_split_repo_pieces _ _ _ Hp) as (? & _ & Hall1).
    destruct (path_split_repo_pieces _ _ _ Hq) as (? & _ & Hall2).
    apply Forall_inv in Hall1 as [_ Hf1]. apply Forall_inv in Hall2 as [_ Hf2].
    change (r2 ++ String slash ("contents/" ++ t2)
            = r1 ++ String slash ("contents/" ++ t1)) in H2.
    destruct (first_piece_unique _ _ _ _ Hf2 Hf1 H2) as [-> Ht].
    apply (app_inv_head_str "contents/") in Ht. now subst.
Qed.

Lemma github_urls_injective_witness :
  _path_split_repo (AStr "rbc://repo1/sub/a.txt")
  = _path_split_repo (AStr "RBC:///repo1/./sub//a.txt").
Proof.
  exact (github_urls_injective
           (AStr "rbc://repo1/sub/a.txt") (AStr "RBC:///repo1/./sub//a.txt")
           "https://raw.githubusercontent.com/ReproBrainChart/repo1/refs/heads/main/sub/a.txt"
           (or_introl (conj eq_refl eq_refl))).
Defined.

(* ================================================================== *)
(** * Further properties: resolution *)
(* ================================================================== *)

Module ResolveFacts.

Import Py PyFacts Client.
Local Open Scope string_scope.

(** The first stage without a mirror: one fetch of the raw-content URL. *)
Lemma obtain_bytes_remote
  (E : env) (self : RBCClient) (path : pathlike) (repo tail : string)
  (t : trace) :
  _github_path self = None ->
  obtain_bytes E self path repo tail t =
  match _get_github_path path with
  | Ok u =>
      (match urlopen_read E u with
       | Ok d => Ok (inr (Some u, d))
       | Err e => Err e
       end, (t ++ [EvHttpGet u])%list)
  | Err e => (Err e, t)
  end.
Proof.
  intros Hgh. unfold obtain_bytes, _url_slurp. rewrite Hgh.
  unfold bind, lift, call, ret.
  destruct (_get_github_path path) as [u|e]; [|reflexivity].
  destruct (urlopen_read E u); reflexivity.
Qed.

(** The first stage with a mirror: up to three file calls on the local
    path, in this order. *)
Lemma obtain_bytes_mirror
  (E : env) (self : RBCClient) (path : pathlike) (gh : Posix.PurePath)
  (repo tail : string) (t : trace) :
  _github_path self = Some gh ->
  obtain_bytes E self path repo tail t =
  let lp := Posix.to_str (gh // repo // tail)%path in
  match os_is_dir E lp with
  | Err e => (Err e, (t ++ [EvIsDir lp])%list)
  | Ok true =>
      (Ok (inl ((s3_prefix ++ repo) ++ "/" ++ tail)), (t ++ [EvIsDir lp])%list)
  | Ok false =>
      match os_is_file E lp with
      | Err e => (Err e, (t ++ [EvIsDir lp; EvIsFile lp])%list)
      | Ok true =>
          (Ok (inl ((s3_prefix ++ repo) ++ "/" ++ tail)),
           (t ++ [EvIsDir lp; EvIsFile lp])%list)
      | Ok false =>
          match os_readlink E lp with
          | Err e =>
              (Err e, (t ++ [EvIsDir lp; EvIsFile lp; EvReadlink lp])%list)
          | Ok target =>
              (Ok (inr (None, Posix.to_str (Posix.parse target))),
               (t ++ [EvIsDir lp; EvIsFile lp; EvReadlink lp])%list)
          end
      end
  end.
Proof.
  intros Hgh. unfold obtain_bytes. rewrite Hgh. cbv zeta.
  unfold Fs.is_dir, Fs.is_file, Fs.readlink, Fs.bytes_of_path.
  unfold bind, call, ret.
  destruct (os_is_dir E _) as [[|]|e]; try reflexivity.
  destruct (os_is_file E _) as [[|]|e];
    rewrite <- ?app_assoc; try reflexivity.
  destruct (os_readlink E _) as [target|e];
    rewrite <- ?app_assoc; reflexivity.
Qed.

(** The rest of the body, once the path is parsed. *)
Lemma get_s3_path_eq
  (E : env) (self : RBCClient) (path : pathlike) (repo tail : string)
  (t : trace) :
  _path_split_repo path = Ok (repo, tail) ->
  _get_s3_path E self path t =
  match obtain_bytes E self path repo tail t with
  | (Err e, t1) => (Err e, t1)
  | (Ok (inl s3), t1) => (Ok s3, t1)
  | (Ok (inr (ghpath, dat)), t1) =>
      if negb (contains annex_marker dat) then
        match ghpath with
        | Some url => (Err (RBCFileException url dat), t1)
        | None => (Err (UnboundLocalError "ghpath"), t1)
        end
      else
        match decode_utf8 dat with
        | Ok text =>
            (Ok (s3_prefix ++ repo ++ "/" ++ last_item (split slash text)), t1)
        | Err e => (Err e, t1)
        end
  end.
Proof.
  intros Hs. unfold _get_s3_path, bind, lift. rewrite Hs.
  destruct (obtain_bytes E self path repo tail t) as [[[s3|[gh dat]]|e] t1];
    try reflexivity.
  destruct (negb (contains annex_marker dat)).
  - destruct gh; reflexivity.
  - unfold ret. destruct (decode_utf8 dat); reflexivity.
Qed.

Lemma get_s3_path_unparsed
  (E : env) (self : RBCClient) (path : pathlike) (e : exn) (t : trace) :
  _path_split_repo path = Err e -> _get_s3_path E self path t = (Err e, t).
Proof. intros Hs. unfold _get_s3_path, bind, lift. now rewrite Hs. Qed.

Lemma network_calls_files (t : trace) (evs : trace) :
  forallb (fun e => negb (is_network e)) evs = true ->
  network_calls (t ++ evs)%list = network_calls t.
Proof.
  intros H. rewrite MFacts.network_calls_app.
  assert (network_calls evs = 0) as ->; [|lia].
  unfold network_calls. induction evs as [|e evs IH]; [reflexivity|].
  simpl in H. apply andb_true_iff in H as [He Hevs].
  simpl. apply negb_true_iff in He. rewrite He. auto.
Qed.

End ResolveFacts.

Import ResolveFacts.

(** X5.  Every location the resolution returns lies under the fixed
    prefix and the repository of the path:
    [s3://fcp-indi/data/Projects/RBC/<repo>/...]. *)
Theorem resolved_under_repository
  (E : env) (self : RBCClient) (path : pathlike) (s3 : string)
  (t t' : trace) :
  _get_s3_path E self path t = (Ok s3, t') ->
  exists repo tail rest : string,
    _path_split_repo path = Ok (repo, tail) /\
    s3 = "s3://fcp-indi/data/Projects/RBC/" ++ repo ++ "/" ++ rest.
Proof.
  destruct (_path_split_repo path) as [[repo tail]|e] eqn:Hs.
  2:{ rewrite (get_s3_path_unparsed _ _ _ _ _ Hs). discriminate. }
  rewrite (get_s3_path_eq _ _ _ _ _ _ Hs). intros H.
  exists repo, tail.
  destruct (_github_path self) as [gh|] eqn:Hgh.
  - rewrite (obtain_bytes_mirror _ _ _ _ _ _ _ Hgh) in H. cbv zeta in H.
    destruct (os_is_dir E _) as [[|]|?]; [| |discriminate].
    + injection H as <- _. exists tail. split; [reflexivity|].
      apply (app_assoc_str s3_prefix repo ("/" ++ tail)).
    + destruct (os_is_file E _) as [[|]|?]; [| |discriminate].
      * injection H as <- _. exists tail. split; [reflexivity|].
        apply (app_assoc_str s3_prefix repo ("/" ++ tail)).
      * destruct (os_readlink E _) as [target|?]; [|discriminate].
        destruct (negb (contains annex_marker _)); [discriminate|].
        destruct (decode_utf8 _) as [text|?]; [|discriminate].
        injection H as <- _. eexists. split; reflexivity.
  - rewrite (obtain_bytes_remote _ _ _ _ _ _ Hgh) in H.
    destruct (_get_github_path path) as [u|?]; [|discriminate].
    destruct (urlopen_read E u) as [d|?]; [|discriminate].
    destruct (negb (contains annex_marker d)); [discriminate|].
    destruct (decode_utf8 d) as [text|?]; [|discriminate].
    injection H as <- _. eexists. split; reflexivity.
Qed.

Lemma resolved_under_repository_witness :
  exists repo tail rest : string,
    _path_split_repo (AStr "rbc://repo1/data.nii.gz") = Ok (repo, tail) /\
    "s3://fcp-indi/data/Projects/RBC/repo1/MD5E-s123--abcdef"
    = "s3://fcp-indi/data/Projects/RBC/" ++ repo ++ "/" ++ rest.
Proof.
  exact (resolved_under_repository world remote_client
           (AStr "rbc://repo1/data.nii.gz")
           "s3://fcp-indi/data/Projects/RBC/repo1/MD5E-s123--abcdef"
           [] [EvHttpGet (raw_url "data.nii.gz")] eq_refl).
Defined.

(** X6.  With a local mirror, a path that is a directory or a file there
    resolves to [s3://fcp-indi/data/Projects/RBC/<repo>/<tail>] after one
    or two file calls: no link is read and nothing is fetched. *)
Theorem mirror_fast_path
  (E : env) (self : RBCClient) (path : pathlike) (gh : Posix.PurePath)
  (repo tail : string) (t : trace) :
  _github_path self = Some gh ->
  _path_split_repo path = Ok (repo, tail) ->
  os_is_dir E (Posix.to_str (gh // repo // tail)%path) = Ok true \/
  (os_is_dir E (Posix.to_str (gh // repo // tail)%path) = Ok false /\
   os_is_file E (Posix.to_str (gh // repo // tail)%path) = Ok true) ->
  exists evs : trace,
    _get_s3_path E self path t =
      (Ok ("s3://fcp-indi/data/Projects/RBC/" ++ repo ++ "/" ++ tail),
       (t ++ evs)%list) /\
    (evs = [EvIsDir (Posix.to_str (gh // repo // tail)%path)] \/
     evs = [EvIsDir (Posix.to_str (gh // repo // tail)%path);
            EvIsFile (Posix.to_str (gh // repo // tail)%path)]).
Proof.
  intros Hgh Hs Hfs.
  rewrite (get_s3_path_eq _ _ _ _ _ _ Hs),
          (obtain_bytes_mirror _ _ _ _ _ _ _ Hgh). cbv zeta.
  pose proof (app_assoc_str s3_prefix repo ("/" ++ tail)) as Ha.
  destruct Hfs as [Hd|[Hd Hf]].
  - rewrite Hd. eexists. split; [|left; reflexivity]. now rewrite Ha.
  - rewrite Hd, Hf. eexists. split; [|right; reflexivity]. now rewrite Ha.
Qed.

Lemma mirror_fast_path_witness :
  exists evs : trace,
    _get_s3_path world mirror_client (AStr "rbc://repo1/sub/a.txt") [] =
      (Ok ("s3://fcp-indi/data/Projects/RBC/" ++ "repo1" ++ "/" ++ "sub/a.txt"),
       ([] ++ evs)%list) /\
    (evs = [EvIsDir "/mirror/repo1/sub/a.txt"] \/
     evs = [EvIsDir "/mirror/repo1/sub/a.txt";
            EvIsFile "/mirror/repo1/sub/a.txt"]).
Proof.
  exact (mirror_fast_path world mirror_client (AStr "rbc://repo1/sub/a.txt")
           (Posix.parse "/mirror") "repo1" "sub/a.txt" []
           eq_refl eq_refl (or_intror (conj eq_refl eq_refl))).
Defined.

(** X7.  With a local mirror the resolution never makes a network call,
    whatever the path and whatever the file calls answer. *)
Theorem mirror_resolution_offline
  (E : env) (self : RBCClient) (path : pathlike) (t : trace) :
  _github_path self <> None ->
  network_calls (snd (_get_s3_path E self path t)) = network_calls t.
Proof.
  intros Hm. destruct (_github_path self) as [gh|] eqn:Hgh; [|contradiction].
  destruct (_path_split_repo path) as [[repo tail]|e] eqn:Hs.
  2:{ now rewrite (get_s3_path_unparsed _ _ _ _ _ Hs). }
  rewrite (get_s3_path_eq _ _ _ _ _ _ Hs),
          (obtain_bytes_mirror _ _ _ _ _ _ _ Hgh). cbv zeta.
  destruct (os_is_dir E _) as [[|]|?]; cbn [snd];
    try (apply network_calls_files; reflexivity).
  destruct (os_is_file E _) as [[|]|?]; cbn [snd];
    try (apply network_calls_files; reflexivity).
  destruct (os_readlink E _) as [target|?]; cbn [snd];
    try (apply network_calls_files; reflexivity).
  destruct (negb (contains annex_marker _)).
  - apply network_calls_files; reflexivity.
  - destruct (decode_utf8 _); apply network_calls_files; reflexivity.
Qed.

Lemma mirror_resolution_offline_witness :
  network_calls
    (snd (_get_s3_path world mirror_client (AStr "rbc://repo1/data.nii.gz") []))
  = network_calls [].
Proof.
  apply (mirror_resolution_offline world mirror_client
           (AStr "rbc://repo1/data.nii.gz") []).
  discriminate.
Defined.

(** X8.  Without a local mirror the resolution makes exactly one call, a
    fetch of the raw-content URL of the path, and never a file call; a
    path that does not parse makes no call at all. *)
Theorem remote_resolution_calls
  (E : env) (self : RBCClient) (path : pathlike) (t : trace) :
  _github_path self = None ->
  snd (_get_s3_path E self path t) =
  match _get_github_path path with
  | Ok u => (t ++ [EvHttpGet u])%list
  | Err _ => t
  end.
Proof.
  intros Hgh.
  destruct (_path_split_repo path) as [[repo tail]|e] eqn:Hs.
  2:{ rewrite (get_s3_path_unparsed _ _ _ _ _ Hs).
      unfold _get_github_path. now rewrite Hs. }
  rewrite (get_s3_path_eq _ _ _ _ _ _ Hs),
          (obtain_bytes_remote _ _ _ _ _ _ Hgh).
  destruct (_get_github_path path) as [u|?] eqn:Hu.
  - destruct (urlopen_read E u) as [d|?]; [|reflexivity].
    destruct (negb (contains annex_marker d)); [reflexivity|].
    destruct (decode_utf8 d); reflexivity.
  - unfold _get_github_path in Hu. rewrite Hs in Hu. discriminate.
Qed.

Lemma remote_resolution_calls_witness :
  snd (_get_s3_path world remote_client (AStr "rbc://repo1/data.nii.gz") [])
  = [EvHttpGet (raw_url "data.nii.gz")].
Proof.
  exact (remote_resolution_calls world remote_client
           (AStr "rbc://repo1/data.nii.gz") [] eq_refl).
Defined.

Module SignalFacts.

Import Py Client Facade.
Local Open Scope string_scope.

Lemma not_signal {A} (r : result A) (u : string) (d : Py.bytes) :
  is_signal r = false -> r <> Err (RBCFileException u d).
Proof. intros H ->. discriminate. Qed.

(** The parser fails with [IndexError] and nothing else. *)
Lemma path_split_repo_error (path : pathlike) (e : exn) :
  _path_split_repo path = Err e -> e = IndexError "tuple index out of range".
Proof.
  unfold _path_split_repo. cbv zeta.
  destruct (Posix.parts _); intros H; [now injection H|discriminate].
Qed.

(** [to_s3] on a string or on a path object is the resolution, wrapped. *)
Lemma to_s3_eq (E : env) (self : RBCClient) (path : pathlike) (t : trace) :
  (forall r, path <> AOther r) ->
  to_s3 E self path t =
  match _get_s3_path E self path t with
  | (Ok s, t1) => (Ok (mkS3Path s), t1)
  | (Err e, t1) => (Err e, t1)
  end.
Proof.
  intros Hp. unfold to_s3, bind, ret.
  destruct path as [s|p|r]; try reflexivity.
  now destruct (Hp r).
Qed.

Lemma world_quiet : env_quiet Scenario.world.
Proof.
  repeat split; intros x; cbn [Scenario.world urlopen_read os_is_dir
    os_is_file os_readlink Scenario.absent];
    repeat (match goal with
            | |- context [if ?b then _ else _] => destruct b
            end); reflexivity.
Qed.

Lemma cloud_quiet : services_quiet Scenario2.cloud.
Proof. repeat split. Qed.

End SignalFacts.

Import Facade SignalFacts Scenario2.

(** X9.  When no outside call answers with the library's own exception,
    the literal-content signal is only ever raised by a client without a
    mirror, and what it carries is true: its URL is the raw-content URL of
    the path, its bytes are what that URL served, and they lack the
    marker. *)
Theorem literal_signal_sound
  (E : env) (self : RBCClient) (path : pathlike) (u : string)
  (d : Py.bytes) (t : trace) :
  env_quiet E ->
  fst (_get_s3_path E self path t) = Err (RBCFileException u d) ->
  _github_path self = None /\
  _get_github_path path = Ok u /\
  urlopen_read E u = Ok d /\
  contains annex_marker d = false.
Proof.
  intros (Qurl & Qdir & Qfile & Qlink).
  destruct (_path_split_repo path) as [[repo tail]|e] eqn:Hs.
  2:{ rewrite (get_s3_path_unparsed _ _ _ _ _ Hs). cbn [fst].
      rewrite (path_split_repo_error _ _ Hs). discriminate. }
  rewrite (get_s3_path_eq _ _ _ _ _ _ Hs).
  destruct (_github_path self) as [gh|] eqn:Hgh.
  - rewrite (obtain_bytes_mirror _ _ _ _ _ _ _ Hgh). cbv zeta.
    pose proof (Qdir (Posix.to_str (gh // repo // tail)%path)) as Hd.
    pose proof (Qfile (Posix.to_str (gh // repo // tail)%path)) as Hf.
    pose proof (Qlink (Posix.to_str (gh // repo // tail)%path)) as Hl.
    destruct (os_is_dir E _) as [[|]|?]; cbn [fst].
    + discriminate.
    + destruct (os_is_file E _) as [[|]|?]; cbn [fst].
      * discriminate.
      * destruct (os_readlink E _) as [target|?]; cbn [fst].
        -- destruct (negb (contains annex_marker _)); [discriminate|].
           unfold decode_utf8. destruct (utf8_valid _); discriminate.
        -- intros H. now apply not_signal in H.
      * intros H. now apply not_signal in H.
    + intros H. now apply not_signal in H.
  - rewrite (obtain_bytes_remote _ _ _ _ _ _ Hgh).
    destruct (_get_github_path path) as [u0|?] eqn:Hu.
    2:{ unfold _get_github_path in Hu. rewrite Hs in Hu. discriminate. }
    pose proof (Qurl u0) as Hq.
    destruct (urlopen_read E u0) as [d0|?] eqn:Hget; cbn [fst].
    + destruct (contains annex_marker d0) eqn:Hm; cbn [negb].
      * unfold decode_utf8. destruct (utf8_valid _); discriminate.
      * intros H. injection H as <- <-. auto.
    + intros H. now apply not_signal in H.
Qed.

Lemma literal_signal_sound_witness :
  _github_path remote_client = None /\
  _get_github_path (AStr "rbc://repo1/participants.tsv")
    = Ok (raw_url "participants.tsv") /\
  urlopen_read world (raw_url "participants.tsv") = Ok participants /\
  contains annex_marker participants = false.
Proof.
  exact (literal_signal_sound world remote_client
           (AStr "rbc://repo1/participants.tsv")
           (raw_url "participants.tsv") participants []
           world_quiet eq_refl).
Defined.

(* ================================================================== *)
(** * Further properties: the operations built on the resolution *)
(* ================================================================== *)

(** X10.  For a path whose resolution signals literal content, the
    existence check answers true and both URL operations answer the URL
    the signal carries, whatever the expiry asked for; the object store
    is not asked. *)
Theorem literal_facade
  (E : env) (S : services) (self : RBCClient) (path : pathlike)
  (u : string) (d : Py.bytes) (w : logs) (t' : trace) :
  (forall r, path <> AOther r) ->
  _get_s3_path E self path (calls w) = (Err (RBCFileException u d), t') ->
  _exists E S self path w = (Ok true, mkLogs t' (io w)) /\
  _get_public_url E S self path w = (Ok u, mkLogs t' (io w)) /\
  forall expire_seconds : Z,
    _generate_presigned_url E S self path expire_seconds w
    = (Ok u, mkLogs t' (io w)).
Proof.
  intros Hp Hres.
  unfold _exists, _get_public_url, _generate_presigned_url, try_else, of_M.
  rewrite (to_s3_eq _ _ _ _ Hp), Hres. repeat split.
Qed.

Lemma literal_facade_witness :
  _exists world cloud remote_client (AStr "rbc://repo1/participants.tsv") fresh
    = (Ok true, mkLogs [EvHttpGet (raw_url "participants.tsv")] []) /\
  _get_public_url world cloud remote_client
    (AStr "rbc://repo1/participants.tsv") fresh
    = (Ok (raw_url "participants.tsv"),
       mkLogs [EvHttpGet (raw_url "participants.tsv")] []) /\
  forall expire_seconds : Z,
    _generate_presigned_url world cloud remote_client
      (AStr "rbc://repo1/participants.tsv") expire_seconds fresh
    = (Ok (raw_url "participants.tsv"),
       mkLogs [EvHttpGet (raw_url "participants.tsv")] []).
Proof.
  apply (literal_facade world cloud remote_client
           (AStr "rbc://repo1/participants.tsv")
           (raw_url "participants.tsv") participants fresh
           [EvHttpGet (raw_url "participants.tsv")]).
  - discriminate.
  - reflexivity.
Defined.

(** X11.  Downloading a path object whose resolution signals literal
    content opens the destination for writing and writes exactly the
    bytes of the signal there; the object store is not asked and the
    operation returns [None]. *)
Theorem download_literal
  (E : env) (S : services) (self : RBCClient) (p : RBCPath)
  (local_path u : string) (d : Py.bytes) (w : logs) (t' : trace) :
  _get_s3_path E self (ARBCPath p) (calls w)
    = (Err (RBCFileException u d), t') ->
  open_wb S (Posix.to_str (Posix.parse local_path)) = Ok tt ->
  write_all S (Posix.to_str (Posix.parse local_path)) d = Ok tt ->
  _download_file E S self (ARBCPath p) local_path w =
  (Ok None,
   mkLogs t' (io w ++ [IoOpenWrite (Posix.to_str (Posix.parse local_path));
                       IoWrite (Posix.to_str (Posix.parse local_path)) d])%list).
Proof.
  intros Hres Hopen Hwrite.
  unfold _download_file, try_else, of_M.
  rewrite to_s3_eq by discriminate. rewrite Hres.
  unfold io_bind, io_call, io_ret. cbn [calls io].
  now rewrite Hopen, Hwrite, <- app_assoc.
Qed.

Lemma download_literal_witness :
  _download_file world cloud remote_client (ARBCPath participants_path)
    "out//participants.tsv" fresh =
  (Ok None,
   mkLogs [EvHttpGet (raw_url "participants.tsv")]
          [IoOpenWrite "out/participants.tsv";
           IoWrite "out/participants.tsv" participants]).
Proof.
  exact (download_literal world cloud remote_client participants_path
           "out//participants.tsv" (raw_url "participants.tsv") participants
           fresh [EvHttpGet (raw_url "participants.tsv")]
           eq_refl eq_refl eq_refl).
Defined.

(** X12.  The existence check answers false only when the path resolved
    to an object-store location and the object store said that location
    does not exist: a path the metadata source does not know makes the
    check raise, not answer false. *)
Theorem exists_false_from_store
  (E : env) (S : services) (self : RBCClient) (path : pathlike) (w : logs) :
  fst (_exists E S self path w) = Ok false ->
  exists s3 : string,
    fst (_get_s3_path E self path (calls w)) = Ok s3 /\
    s3_exists S s3 = Ok false.
Proof.
  unfold _exists, try_else, of_M, io_call, io_ret.
  destruct path as [s|p|r].
  - rewrite to_s3_eq by discriminate.
    destruct (_get_s3_path E self (AStr s) (calls w)) as [[s3|e] t1];
      cbn [fst s3_url].
    + intros H. now exists s3.
    + destruct e; discriminate.
  - rewrite to_s3_eq by discriminate.
    destruct (_get_s3_path E self (ARBCPath p) (calls w)) as [[s3|e] t1];
      cbn [fst s3_url].
    + intros H. now exists s3.
    + destruct e; discriminate.
  - cbn. discriminate.
Qed.

Lemma exists_false_from_store_witness :
  exists s3 : string,
    fst (_get_s3_path world mirror_client (AStr "rbc://repo1/sub/a.txt") [])
      = Ok s3 /\
    s3_exists cloud s3 = Ok false.
Proof.
  exact (exists_false_from_store world cloud mirror_client
           (AStr "rbc://repo1/sub/a.txt") fresh eq_refl).
Defined.

(** X13.  When the object store and the local disk do not answer with
    the library's own exception, no operation built on the resolution
    ends in the literal-content signal: existence, the two URL
    operations, the download and [stat] all handle it. *)
Theorem signal_never_leaks
  (E : env) (S : services) (self : RBCClient) (path : pathlike)
  (p : RBCPath) (local_path : string) (expire_seconds : Z)
  (w : logs) (t : trace) :
  services_quiet S ->
  is_signal (fst (_exists E S self path w)) = false /\
  is_signal (fst (_get_public_url E S self path w)) = false /\
  is_signal (fst (_generate_presigned_url E S self path expire_seconds w))
    = false /\
  is_signal (fst (_download_file E S self path local_path w)) = false /\
  is_signal (fst (CloudPath.stat E p t)) = false.
Proof.
  intros (Qex & Qdl & Qpub & Qsig & Qopen & Qwrite).
  split; [|split; [|split; [|split]]].
  - unfold _exists, try_else, of_M, io_call, io_ret.
    destruct (to_s3 E self path (calls w)) as [[a|e] t1]; cbn [fst].
    + apply Qex.
    + destruct e; reflexivity.
  - unfold _get_public_url, try_else, of_M, io_call, io_ret.
    destruct (to_s3 E self path (calls w)) as [[a|e] t1]; cbn [fst].
    + apply Qpub.
    + destruct e; reflexivity.
  - unfold _generate_presigned_url, try_else, of_M, io_call, io_ret.
    destruct (to_s3 E self path (calls w)) as [[a|e] t1]; cbn [fst].
    + apply Qsig.
    + destruct e; reflexivity.
  - unfold _download_file.
    destruct path as [s|q|r]; try reflexivity.
    unfold try_else, of_M, io_bind, io_call, io_ret.
    destruct (to_s3 E self (ARBCPath q) (calls w)) as [[a|e] t1].
    + pose proof (Qdl (s3_url a) local_path) as H.
      destruct (s3_download S (s3_url a) local_path); [reflexivity|exact H].
    + destruct e; try reflexivity.
      pose proof (Qopen (Posix.to_str (Posix.parse local_path))) as Ho.
      pose proof (Qwrite (Posix.to_str (Posix.parse local_path)) contents)
        as Hw.
      destruct (open_wb S _); [|exact Ho].
      destruct (write_all S _ _); [reflexivity|exact Hw].
  - unfold CloudPath.stat, try_rbc, bind, clock, ret.
    destruct (_stat p); [reflexivity|].
    destruct (CloudPath.s3path E p t) as [[a|e] t1].
    + destruct (CloudPath.s3_path_stat E a t1) as [[s|e] t2];
        [reflexivity|destruct e; reflexivity].
    + destruct e; reflexivity.
Qed.

Lemma signal_never_leaks_witness :
  is_signal (fst (_exists world cloud remote_client
                    (AStr "rbc://repo1/participants.tsv") fresh)) = false /\
  is_signal (fst (_download_file world cloud remote_client
                    (ARBCPath participants_path) "out.tsv" fresh)) = false.
Proof.
  destruct (signal_never_leaks world cloud remote_client
              (AStr "rbc://repo1/participants.tsv") participants_path
              "out.tsv" 3600 fresh [] cloud_quiet)
    as (H1 & _).
  destruct (signal_never_leaks world cloud remote_client
              (ARBCPath participants_path) participants_path
              "out.tsv" 3600 fresh [] cloud_quiet)
    as (_ & _ & _ & H4 & _).
  split; assumption.
Defined.

(** X14.  Once [stat] has answered, the path object it hands back
    answers every later [stat] with the same record and without any
    outside call, whatever the sources say by then. *)
Theorem stat_cached
  (E : env) (self self' : RBCPath) (s : stat_result) (t t' : trace) :
  CloudPath.stat E self t = (Ok (s, self'), t') ->
  forall (E' : env) (t2 : trace),
    CloudPath.stat E' self' t2 = (Ok (s, self'), t2).
Proof.
  unfold CloudPath.stat at 1. destruct (_stat self) as [s0|] eqn:Hc.
  - unfold ret. intros H. injection H as <- <- _.
    intros E' t2. unfold CloudPath.stat. now rewrite Hc.
  - unfold bind at 1.
    destruct (try_rbc _ _ t) as [[s1|e] t1]; [|discriminate].
    unfold ret. intros H. injection H as <- <- _.
    intros E' t2. reflexivity.
Qed.

Lemma stat_cached_witness :
  exists (s : stat_result) (p' : RBCPath),
    fst (CloudPath.stat world participants_path []) = Ok (s, p') /\
    forall (E' : env) (t2 : trace),
      CloudPath.stat E' p' t2 = (Ok (s, p'), t2).
Proof.
  eexists _, _. split; [reflexivity|].
  exact (stat_cached world participants_path _ _ []
           [EvHttpGet (raw_url "participants.tsv"); EvTime] eq_refl).
Defined.

(* ================================================================== *)
(** * Further properties: the metadata query and listings *)
(* ================================================================== *)

Module ListingFacts.

Import Py PyFacts Client.
Local Open Scope string_scope.

(** The metadata query on a mirror: an [is_dir] call, then the entries
    of a directory or the [lstat] of anything else. *)
Lemma get_github_json_mirror
  (E : env) (self : RBCClient) (path : pathlike) (gh : Posix.PurePath)
  (repo tail : string) (t : trace) :
  _github_path self = Some gh ->
  _path_split_repo path = Ok (repo, tail) ->
  _get_github_json E self path t =
  let locpath := (gh // repo // tail)%path in
  let lp := Posix.to_str locpath in
  match os_is_dir E lp with
  | Err e => (Err e, (t ++ [EvIsDir lp])%list)
  | Ok true =>
      match os_listdir E lp with
      | Ok names =>
          (Ok (PList (map (fun p => PDict [("path", PPath p)])
                          (map (Posix.child locpath) names))),
           (t ++ [EvIsDir lp; EvListdir lp])%list)
      | Err e => (Err e, (t ++ [EvIsDir lp; EvListdir lp])%list)
      end
  | Ok false =>
      match os_lstat E lp with
      | Ok _ =>
          (Ok (PDict [("path", PPath locpath)]),
           (t ++ [EvIsDir lp; EvLstat lp])%list)
      | Err e => (Err e, (t ++ [EvIsDir lp; EvLstat lp])%list)
      end
  end.
Proof.
  intros Hgh Hs. unfold _get_github_json. rewrite Hgh.
  unfold bind at 1. unfold lift. rewrite Hs. cbv zeta.
  unfold Fs.is_dir, Fs.iterdir, Fs.lstat, bind, call, ret, stat_truth.
  destruct (os_is_dir E _) as [[|]|e]; try reflexivity.
  - destruct (os_listdir E _); rewrite <- ?app_assoc; reflexivity.
  - destruct (os_lstat E _); rewrite <- ?app_assoc; reflexivity.
Qed.

(** What a successful listing call has established. *)
Lemma list_dir_ok
  (E : env) (self : RBCClient) (path : pathlike) (recursive : bool)
  (g : generator) (t t' : trace) :
  _list_dir E self path recursive t = (Ok g, t') ->
  gen_self g = self /\
  exists tail, _path_split_repo path = Ok (gen_repo g, tail).
Proof.
  unfold _list_dir. destruct recursive; [discriminate|].
  unfold bind, lift.
  destruct (_path_split_repo path) as [[repo tail]|e]; [|discriminate].
  destruct (_get_github_json E self path t) as [[json|e] t1]; [|discriminate].
  destruct (negb (is_list json)); [discriminate|].
  unfold ret. intros H. injection H as <- _. split; [reflexivity|].
  now exists tail.
Qed.

(** Every path a generator yields was built by its body. *)
Lemma gen_run_in
  (E : env) (g : generator) (l : list pyval) (rp : RBCPath) :
  In rp (fst (gen_run E g l)) -> exists v, gen_body E g v = Ok rp.
Proof.
  induction l as [|x l IH]; simpl; [contradiction|].
  destruct (gen_body E g x) as [p|e] eqn:Hx; [|contradiction].
  destruct (gen_run E g l) as [ps e]. simpl.
  intros [->|H]; [now exists x|auto].
Qed.

Lemma gen_body_ok
  (E : env) (g : generator) (v : pyval) (rp : RBCPath) :
  gen_body E g v = Ok rp ->
  exists x : string,
    rp = mkRBCPath ("rbc://" ++ gen_repo g ++ "/" ++ x) (gen_self g) None.
Proof.
  unfold gen_body, new_RBCPath.
  destruct (subscript v "path") as [x|e]; [|discriminate].
  destruct (get_default_client E); [|discriminate].
  destruct (startswith "rbc://" _); [|discriminate].
  destruct (cloudpath_init E _); [|discriminate].
  intros H. injection H as <-. now eexists.
Qed.

(** A path written from a repository and any text parses to that
    repository. *)
Lemma path_split_repo_child (repo x : string) :
  Posix.keep repo = true -> slash_free repo ->
  _path_split_repo (AStr ("rbc://" ++ repo ++ "/" ++ x)) =
  Ok (repo, join "/" (filter Posix.keep (split slash x))).
Proof.
  intros Hk Hf. rewrite ParserFacts.path_split_repo_eq.
  cbn [str_of]. cbv zeta.
  change (if has_scheme ("rbc://" ++ repo ++ "/" ++ x)
          then drop 6 ("rbc://" ++ repo ++ "/" ++ x)
          else "rbc://" ++ repo ++ "/" ++ x)
    with (repo ++ String slash x).
  rewrite split_app_sep by exact Hf.
  cbn [filter]. now rewrite Hk.
Qed.

End ListingFacts.

Import ListingFacts.

(** X15.  With a local mirror the metadata query never makes a network
    call, whatever the path and whatever the file calls answer. *)
Theorem mirror_query_never_fetches
  (E : env) (self : RBCClient) (path : pathlike) (t : trace) :
  _github_path self <> None ->
  network_calls (snd (_get_github_json E self path t)) = network_calls t /\
  network_calls (snd (_list_dir E self path false t)) = network_calls t /\
  network_calls (snd (_path_kind E self path t)) = network_calls t.
Proof.
  intros Hm. pose proof (mirror_query_offline E self path t Hm) as Hq.
  split; [exact Hq|]. split.
  - unfold _list_dir, bind, lift, ret, raise.
    destruct (_path_split_repo path) as [[repo tail]|e]; [|reflexivity].
    destruct (_get_github_json E self path t) as [[json|e] t1];
      cbn [snd] in *; [|exact Hq].
    destruct (negb (is_list json)); exact Hq.
  - unfold _path_kind, bind, ret.
    destruct (_get_github_json E self path t) as [[json|e] t1];
      cbn [snd] in *; [|exact Hq].
    destruct (negb (is_list json)); exact Hq.
Qed.

Lemma mirror_query_never_fetches_witness :
  network_calls
    (snd (_list_dir world mirror_client (AStr "rbc://repo1/sub") false []))
  = network_calls [].
Proof.
  apply (mirror_query_never_fetches world mirror_client
           (AStr "rbc://repo1/sub") []).
  discriminate.
Defined.

(** X16.  On a local mirror a path object is a directory or a file, never
    both and never neither: when [is_dir] answers, [is_file] answers the
    opposite. *)
Theorem mirror_dir_xor_file (E : env) (p : RBCPath) (b : bool) (t : trace) :
  _github_path (client p) <> None ->
  fst (CloudPath.is_dir E p t) = Ok b ->
  fst (CloudPath.is_file E p t) = Ok (negb b).
Proof.
  intros Hm. destruct (_github_path (client p)) as [gh|] eqn:Hgh;
    [clear Hm|contradiction].
  unfold CloudPath.is_dir, CloudPath.is_file, bind, ret.
  destruct (_path_split_repo (ARBCPath p)) as [[repo tail]|e] eqn:Hs.
  - rewrite (get_github_json_mirror _ _ _ _ _ _ _ Hgh Hs). cbv zeta.
    destruct (os_is_dir E _) as [[|]|?]; cbn [fst]; try discriminate.
    + destruct (os_listdir E _); cbn [fst]; try discriminate.
      intros H. now injection H as <-.
    + destruct (os_lstat E _); cbn [fst]; try discriminate.
      intros H. now injection H as <-.
  - unfold _get_github_json. rewrite Hgh. unfold bind, lift. rewrite Hs.
    discriminate.
Qed.

Lemma mirror_dir_xor_file_witness :
  fst (CloudPath.is_file world (sub_path mirror_client) []) = Ok (negb true).
Proof.
  apply (mirror_dir_xor_file world (sub_path mirror_client) true []).
  - discriminate.
  - reflexivity.
Defined.

(** X17.  On a local mirror, listing a path that is not a directory never
    returns a generator: it raises what [lstat] raises when the path is
    missing, and [TypeError], naming the path, when it is there. *)
Theorem list_non_directory
  (E : env) (self : RBCClient) (path : pathlike) (gh : Posix.PurePath)
  (repo tail : string) (t : trace) :
  _github_path self = Some gh ->
  _path_split_repo path = Ok (repo, tail) ->
  os_is_dir E (Posix.to_str (gh // repo // tail)%path) = Ok false ->
  fst (_list_dir E self path false t) =
  match os_lstat E (Posix.to_str (gh // repo // tail)%path) with
  | Ok _ => Err (TypeError ("cannot list non-directory: " ++ str_of path))
  | Err e => Err e
  end.
Proof.
  intros Hgh Hs Hd. unfold _list_dir, bind, lift. rewrite Hs.
  rewrite (get_github_json_mirror _ _ _ _ _ _ _ Hgh Hs). cbv zeta.
  rewrite Hd. destruct (os_lstat E _); reflexivity.
Qed.

Lemma list_non_directory_witness :
  fst (_list_dir world mirror_client (AStr "rbc://repo1/data.nii.gz") false [])
  = Err (TypeError "cannot list non-directory: rbc://repo1/data.nii.gz").
Proof.
  exact (list_non_directory world mirror_client
           (AStr "rbc://repo1/data.nii.gz") (Posix.parse "/mirror")
           "repo1" "data.nii.gz" [] eq_refl eq_refl eq_refl).
Defined.



(** A path object that cannot be built ends the generator as well: with a
    repository that makes the URL parser fail, nothing is yielded. *)
Example listing_stops_at_bad_url :
  gen_run world (mkGen "[repo1" remote_client [])
    [PDict [("path", PStr "sub/a.txt")]; PDict [("path", PStr "sub/b.txt")]]
  = ([], Some (ValueError "Invalid IPv6 URL")).
Proof. reflexivity. Qed.

(** X19.  Every path a listing yields is stamped with the listing
    client, has nothing cached, and parses to the repository of the
    listed path, whatever the entries hold. *)
Theorem listed_children_same_repository
  (E : env) (self : RBCClient) (path : pathlike) (g : generator)
  (t t' : trace) (rp : RBCPath) :
  _list_dir E self path false t = (Ok g, t') ->
  In rp (fst (consume E g)) ->
  client rp = self /\
  _stat rp = None /\
  exists tail tail' : string,
    _path_split_repo path = Ok (gen_repo g, tail) /\
    _path_split_repo (ARBCPath rp) = Ok (gen_repo g, tail').
Proof.
  intros Hl Hin.
  destruct (list_dir_ok _ _ _ _ _ _ _ Hl) as (Hself & tail & Hs).
  destruct (gen_run_in _ _ _ _ Hin) as (v & Hv).
  destruct (gen_body_ok _ _ _ _ Hv) as (x & ->).
  cbn [client _stat]. repeat split; [exact Hself|].
  destruct (path_split_repo_pieces _ _ _ Hs) as (rest & _ & Hall).
  apply Forall_inv in Hall as [Hk Hf].
  exists tail. eexists. split; [exact Hs|].
  exact (path_split_repo_child (gen_repo g) x Hk Hf).
Qed.

Lemma listed_children_same_repository_witness :
  exists tail tail' : string,
    _path_split_repo (AStr "rbc://repo1/sub") = Ok ("repo1", tail) /\
    _path_split_repo
      (ARBCPath (mkRBCPath "rbc://repo1/sub/b.txt" remote_client None))
    = Ok ("repo1", tail').
Proof.
  destruct (listed_children_same_repository world remote_client
              (AStr "rbc://repo1/sub")
              (mkGen "repo1" remote_client (list_items listing))
              [] [EvHttpGet (raw_url "sub")]
              (mkRBCPath "rbc://repo1/sub/b.txt" remote_client None)
              eq_refl (or_intror (or_introl eq_refl)))
    as (_ & _ & H).
  exact H.
Defined.

(** X20.  Without a mirror, when the raw-content URL of the path serves a
    JSON array of objects with a string under ['path'], a default client
    is at hand and the path object of each entry can be built, the listing
    fetches that one URL and yields [rbc://<repo>/<that string>] for each
    entry, in the order of the array. *)
Theorem remote_listing_paths
  (E : env) (path : pathlike) (repo tail : string) (dat : Py.bytes)
  (entries : list string) (t : trace) :
  _path_split_repo path = Ok (repo, tail) ->
  urlopen_read E ("https://raw.githubusercontent.com/ReproBrainChart/"
                  ++ repo ++ "/refs/heads/main/" ++ tail) = Ok dat ->
  json_loads E dat = Ok (PList (map (fun x => PDict [("path", PStr x)])
                                    entries)) ->
  get_default_client E = Ok tt ->
  Forall (fun x => cloudpath_init E ("rbc://" ++ repo ++ "/" ++ x) = Ok tt)
         entries ->
  exists g : generator,
    _list_dir E (mkClient None) path false t =
      (Ok g, (t ++ [EvHttpGet
                      ("https://raw.githubusercontent.com/ReproBrainChart/"
                       ++ repo ++ "/refs/heads/main/" ++ tail)])%list) /\
    consume E g =
    (map (fun x => mkRBCPath ("rbc://" ++ repo ++ "/" ++ x)
                     (mkClient None) None) entries, None).
Proof.
  intros Hs Hget Hjson Hdc Hall. eexists. split.
  - unfold _list_dir, _get_github_json, _get_github_path, _url_slurp.
    cbv beta iota delta [bind lift call ret raise _github_path].
    rewrite Hs. cbv beta iota. rewrite Hget, Hjson. reflexivity.
  - unfold consume. cbn [gen_source list_items].
    exact (gen_run_strings E (mkGen repo (mkClient None) _) entries Hdc Hall).
Qed.

Lemma remote_listing_paths_witness :
  exists g : generator,
    _list_dir world (mkClient None) (AStr "rbc://repo1/sub") false [] =
      (Ok g, [EvHttpGet (raw_url "sub")]) /\
    consume world g =
    ([mkRBCPath "rbc://repo1/sub/a.txt" (mkClient None) None;
      mkRBCPath "rbc://repo1/sub/b.txt" (mkClient None) None], None).
Proof.
  apply (remote_listing_paths world (AStr "rbc://repo1/sub") "repo1" "sub"
           listing_json ["sub/a.txt"; "sub/b.txt"] []).
  - reflexivity.
  - reflexivity.
  - reflexivity.
  - reflexivity.
  - repeat constructor.
Defined.

(** X21.  With a mirror, listing a local directory makes two file calls,
    [is_dir] and the reading of the directory, and no network call; when
    a default client is at hand and the path object of each entry can be
    built, the generator yields exactly one path per directory entry,
    each stamped with the listing client, and ends without an
    exception. *)
Theorem mirror_listing_paths
  (E : env) (self : RBCClient) (path : pathlike) (gh : Posix.PurePath)
  (repo tail : string) (names : list string) (t : trace) :
  _github_path self = Some gh ->
  _path_split_repo path = Ok (repo, tail) ->
  os_is_dir E (Posix.to_str (gh // repo // tail)%path) = Ok true ->
  os_listdir E (Posix.to_str (gh // repo // tail)%path) = Ok names ->
  get_default_client E = Ok tt ->
  Forall (fun n =>
            cloudpath_init E
              ("rbc://" ++ repo ++ "/" ++
               Posix.to_str (Posix.child (gh // repo // tail)%path n))
            = Ok tt) names ->
  exists (g : generator) (ps : list RBCPath),
    _list_dir E self path false t =
      (Ok g, (t ++ [EvIsDir (Posix.to_str (gh // repo // tail)%path);
                    EvListdir (Posix.to_str (gh // repo // tail)%path)])%list)
    /\
    consume E g = (ps, None) /\
    List.length ps = List.length names /\
    Forall (fun rp => client rp = self) ps.
Proof.
  intros Hgh Hs Hdir Hls Hdc Hall. eexists _, _. split; [|split; [|split]].
  - unfold _list_dir, bind, lift. rewrite Hs.
    rewrite (get_github_json_mirror _ _ _ _ _ _ _ Hgh Hs). cbv zeta.
    rewrite Hdir, Hls. reflexivity.
  - unfold consume. cbn [gen_source list_items].
    apply (gen_run_paths E (mkGen repo self _) _ Hdc).
    apply Forall_map. exact Hall.
  - now rewrite !length_map.
  - apply Forall_forall. intros rp Hin.
    apply in_map_iff in Hin as (n & <- & _). reflexivity.
Qed.

Lemma mirror_listing_paths_witness :
  exists (g : generator) (ps : list RBCPath),
    _list_dir world mirror_client (AStr "rbc://repo1/sub") false [] =
      (Ok g, [EvIsDir "/mirror/repo1/sub"; EvListdir "/mirror/repo1/sub"]) /\
    consume world g = (ps, None) /\
    List.length ps = 2 /\
    Forall (fun rp => client rp = mirror_client) ps.
Proof.
  apply (mirror_listing_paths world mirror_client (AStr "rbc://repo1/sub")
           (Posix.parse "/mirror") "repo1" "sub" ["a.txt"; "b.txt"] []).
  - reflexivity.
  - reflexivity.
  - reflexivity.
  - reflexivity.
  - reflexivity.
  - repeat constructor.
Defined.

(* ================================================================== *)
(** * Further properties: construction of a client *)
(* ================================================================== *)

(** X22.  A client that was constructed with a mirror has a mirror that
    existed and was a directory when it was constructed; a client that was
    constructed without one was given no path. *)
Theorem init_mirror_checked
  (E : env) (S : services) (github_path : option string)
  (w w' : logs) (self : RBCClient) :
  __init__ E S github_path w = (Ok self, w') ->
  match _github_path self with
  | Some p =>
      os_exists S (Posix.to_str p) = Ok true /\
      os_is_dir E (Posix.to_str p) = Ok true
  | None => github_path = None
  end.
Proof.
  unfold __init__, io_bind, io_call, io_ret, io_raise, of_M, Fs.is_dir, call.
  destruct (super_init S); [|discriminate].
  destruct (s3client_init S); [|discriminate].
  destruct github_path as [gp|]; cbv beta iota.
  - destruct (os_exists S (Posix.to_str (Posix.parse gp))) as [[|]|?] eqn:Hex;
      cbn [negb]; try discriminate.
    cbn [calls io].
    destruct (os_is_dir E (Posix.to_str (Posix.parse gp))) as [[|]|?] eqn:Hd;
      cbn [negb]; try discriminate.
    intros H. injection H as <- _. cbn [_github_path]. auto.
  - destruct (match environ_get S "JUPYTER_IMAGE" with
              | Some s => Py.contains "quay.io/arokem/nh2025" s
              | None => false
              end).
    + destruct (os_exists S (Posix.to_str (Posix.parse "/home/jovyan/shared/RBC")))
        as [[|]|?] eqn:Hex; cbn [negb]; try discriminate.
      cbn [calls io].
      destruct (os_is_dir E (Posix.to_str (Posix.parse "/home/jovyan/shared/RBC")))
        as [[|]|?] eqn:Hd; cbn [negb]; try discriminate.
      intros H. injection H as <- _. cbn [_github_path]. auto.
    + intros H. injection H as <- _. reflexivity.
Qed.

Lemma init_mirror_checked_witness :
  os_exists cloud (Posix.to_str (Posix.parse "/mirror")) = Ok true /\
  os_is_dir world (Posix.to_str (Posix.parse "/mirror")) = Ok true.
Proof.
  exact (init_mirror_checked world cloud (Some "/mirror") fresh
           (mkLogs [EvIsDir "/mirror"]
                   [IoSuperInit; IoS3ClientInit; IoExists "/mirror"])
           mirror_client eq_refl).
Defined.

(** X23.  On the NeuroHackademy hub (the variable [JUPYTER_IMAGE] holds
    [quay.io/arokem/nh2025]), constructing a client without a path ends as
    constructing it with the path [/home/jovyan/shared/RBC] does: the same
    client or the same failure. *)
Theorem init_hub_default
  (E : env) (S : services) (img : string) (w : logs) :
  environ_get S "JUPYTER_IMAGE" = Some img ->
  Py.contains "quay.io/arokem/nh2025" img = true ->
  fst (__init__ E S None w) =
  fst (__init__ E S (Some "/home/jovyan/shared/RBC") w).
Proof.
  intros Himg Hhub.
  unfold __init__, io_bind, io_call, io_ret, io_raise, of_M, Fs.is_dir, call.
  destruct (super_init S); [|reflexivity].
  destruct (s3client_init S); [|reflexivity].
  rewrite Himg, Hhub. cbv beta iota.
  destruct (os_exists S _) as [[|]|?]; cbn [negb calls io]; try reflexivity.
  destruct (os_is_dir E _) as [[|]|?]; reflexivity.
Qed.

Lemma init_hub_default_witness :
  fst (__init__ world hub None fresh) =
  fst (__init__ world hub (Some "/home/jovyan/shared/RBC") fresh).
Proof.
  exact (init_hub_default world hub "quay.io/arokem/nh2025:latest" fresh
           eq_refl eq_refl).
Defined.

(** X24.  Away from the hub, constructing a client without a path gives a
    client without a mirror, after one look at the environment and without
    any file call. *)
Theorem init_plain_default (E : env) (S : services) (w : logs) :
  super_init S = Ok tt ->
  s3client_init S = Ok tt ->
  (forall img, environ_get S "JUPYTER_IMAGE" = Some img ->
               Py.contains "quay.io/arokem/nh2025" img = false) ->
  __init__ E S None w =
  (Ok (mkClient None),
   mkLogs (calls w)
          (io w ++ [IoSuperInit; IoS3ClientInit; IoEnviron "JUPYTER_IMAGE"])%list).
Proof.
  intros Hsuper Hs3 Hplain.
  unfold __init__, io_bind, io_call, io_ret.
  rewrite Hsuper, Hs3. cbn [calls io].
  destruct (environ_get S "JUPYTER_IMAGE") as [img|] eqn:Himg.
  - rewrite (Hplain img eq_refl). now rewrite <- !app_assoc.
  - now rewrite <- !app_assoc.
Qed.

Lemma init_plain_default_witness :
  __init__ world cloud None fresh =
  (Ok (mkClient None),
   mkLogs [] [IoSuperInit; IoS3ClientInit; IoEnviron "JUPYTER_IMAGE"]).
Proof.
  apply (init_plain_default world cloud fresh eq_refl eq_refl).
  intros img H. discriminate H.
Defined.
